(** * gpiotest: the Greybus GPIO conformance-test driver

    A shallow embedding of [apps/greybus/gpiotest/gpiotest.c].  Every test
    case of the driver is a straight-line sequence of calls into the GPIO
    capability layer ([commsteps.h], [libfwtest.h]); the embedding runs a
    test case against an arbitrary capability layer and records what the
    test case did in a trace, so that the properties of the driver are
    statements about the traces and the values it returns. *)

From Stdlib Require Import ZArith List String Ascii Bool Lia.
Import ListNotations.

Local Open Scope string_scope.
Local Open Scope Z_scope.
Local Open Scope list_scope.

(** ** C characters and strings *)

Module CString.

(** A [char] read as [unsigned char]. *)
Definition uchar (c : ascii) : Z := Z.of_N (N_of_ascii c).

(** The byte a C string holds at its head: the terminating NUL once the
    string is exhausted. *)
Definition head (s : string) : ascii :=
  match s with
  | EmptyString => zero
  | String c _ => c
  end.

Definition tail (s : string) : string :=
  match s with
  | EmptyString => EmptyString
  | String _ t => t
  end.

Definition isupper (c : ascii) : bool :=
  (65 <=? uchar c) && (uchar c <=? 90).

Definition tolower (c : ascii) : ascii :=
  if isupper c then ascii_of_N (N_of_ascii c + 32) else c.

Definition isdigit (c : ascii) : bool :=
  (48 <=? uchar c) && (uchar c <=? 57).

(** [isspace] in the C locale: space, and \t \n \v \f \r. *)
Definition isspace (c : ascii) : bool :=
  (uchar c =? 32) || ((9 <=? uchar c) && (uchar c <=? 13)).

Definition strlen (s : string) : nat := String.length s.

(** [strcmp]: the difference of the first pair of bytes that differ, 0
    when both strings end together. *)
Fixpoint strcmp (s1 s2 : string) : Z :=
  match s1, s2 with
  | EmptyString, _ => 0 - uchar (head s2)
  | String c1 t1, EmptyString => uchar c1
  | String c1 t1, String c2 t2 =>
      if uchar c1 =? uchar c2
      then (if uchar c1 =? 0 then 0 else strcmp t1 t2)
      else uchar c1 - uchar c2
  end.

(** [strncasecmp]: at most [n] bytes are compared, each through
    [tolower]; the comparison stops at a NUL. *)
Fixpoint strncasecmp (s1 s2 : string) (n : nat) : Z :=
  match n with
  | O => 0
  | S n' =>
      let c1 := tolower (head s1) in
      let c2 := tolower (head s2) in
      if uchar c1 =? uchar c2
      then (if uchar c1 =? 0 then 0
            else strncasecmp (tail s1) (tail s2) n')
      else uchar c1 - uchar c2
  end.

(** [atoi]: leading white space, an optional sign, then decimal digits.
    The number is not cut to [int]: C defines [atoi] only where an [int]
    holds the number, and there the two agree. *)
Fixpoint digits (s : string) (acc : Z) : Z :=
  match s with
  | EmptyString => acc
  | String c t =>
      if isdigit c then digits t (10 * acc + (uchar c - 48)) else acc
  end.

Fixpoint atoi (s : string) : Z :=
  match s with
  | EmptyString => 0
  | String c t =>
      if isspace c then atoi t
      else if uchar c =? 45 then - digits t 0
      else if uchar c =? 43 then digits t 0
      else digits s 0
  end.

(** Decimal printing of a non-negative number, for the [%d] of the one
    log line that needs it. *)
Definition digit_char (d : Z) : ascii := ascii_of_N (Z.to_N (48 + d)).

Fixpoint utoa_aux (fuel : nat) (n : Z) (acc : string) : string :=
  match fuel with
  | O => acc
  | S fuel' =>
      let acc' := String (digit_char (n mod 10)) acc in
      if n / 10 =? 0 then acc' else utoa_aux fuel' (n / 10) acc'
  end.

Definition utoa (n : Z) : string := utoa_aux 20 n EmptyString.

End CString.
Import CString.

(** C's [!] on an [int]. *)
Definition lnot (z : Z) : bool := z =? 0.

(** Conversion to [uint16_t]. *)
Definition uint16 (z : Z) : Z := z mod 65536.

(** [EINVAL] of [errno.h]. *)
Definition EINVAL : Z := 22.

(** ** The execution context *)

(** [struct gpio_app_info].  The six numbers are [uint16_t] in the source;
    [num_type] is the C string held by [char num_type[2]].  The sums
    [info->base_pin + info->gpio_pin1] and the like are computed in
    [int], where two [uint16_t] cannot overflow. *)
Record gpio_app_info := mk_info {
  case_id : Z;
  base_pin : Z;
  max_count : Z;
  gpio_pin1 : Z;
  gpio_pin2 : Z;
  gpio_pin3 : Z;
  num_type : string
}.

Definition set_case_id (info : gpio_app_info) (v : Z) : gpio_app_info :=
  mk_info v (base_pin info) (max_count info) (gpio_pin1 info)
          (gpio_pin2 info) (gpio_pin3 info) (num_type info).

Definition set_base_pin (info : gpio_app_info) (v : Z) : gpio_app_info :=
  mk_info (case_id info) v (max_count info) (gpio_pin1 info)
          (gpio_pin2 info) (gpio_pin3 info) (num_type info).

Definition set_max_count (info : gpio_app_info) (v : Z) : gpio_app_info :=
  mk_info (case_id info) (base_pin info) v (gpio_pin1 info)
          (gpio_pin2 info) (gpio_pin3 info) (num_type info).

Definition set_gpio_pin1 (info : gpio_app_info) (v : Z) : gpio_app_info :=
  mk_info (case_id info) (base_pin info) (max_count info) v
          (gpio_pin2 info) (gpio_pin3 info) (num_type info).

Definition set_gpio_pin2 (info : gpio_app_info) (v : Z) : gpio_app_info :=
  mk_info (case_id info) (base_pin info) (max_count info) (gpio_pin1 info)
          v (gpio_pin3 info) (num_type info).

Definition set_gpio_pin3 (info : gpio_app_info) (v : Z) : gpio_app_info :=
  mk_info (case_id info) (base_pin info) (max_count info) (gpio_pin1 info)
          (gpio_pin2 info) v (num_type info).

Definition set_num_type (info : gpio_app_info) (v : string) : gpio_app_info :=
  mk_info (case_id info) (base_pin info) (max_count info) (gpio_pin1 info)
          (gpio_pin2 info) (gpio_pin3 info) v.

(** The test every test case makes of the addressing mode:
    [!(strncasecmp(info->num_type, lit, strlen(lit) + 1))]. *)
Definition is_num_type (info : gpio_app_info) (lit : string) : bool :=
  lnot (strncasecmp (num_type info) lit (strlen lit + 1)).

(** ** The capability layer and the trace *)

(** The calls of [commsteps.h] a test case makes, with the arguments it
    passes: the case identifier, the absolute line number(s), the token a
    set call writes, and the size of the buffer handed over. *)
Inductive call :=
| Get_greybus_gpio_count (base : Z) (size : Z)
| Activate_gpio_pin (cid pin : Z)
| Activate_gpio_multiple_pin (cid pin1 pin2 pin3 : Z)
| Deactivate_gpio_pin (cid pin : Z)
| Deactivate_gpio_multiple_pin (cid pin1 pin2 pin3 : Z)
| Get_gpio_direction (cid pin : Z) (size : Z)
| Set_gpio_direction (cid pin : Z) (buf : string) (size : Z)
| Get_gpio_value (cid pin : Z) (size : Z)
| Set_gpio_value (cid pin : Z) (buf : string) (size : Z)
| Get_gpio_edge (cid pin : Z) (size : Z)
| Set_gpio_edge (cid pin : Z) (buf : string) (size : Z).

(** What a run leaves behind, in order. *)
Inductive event :=
| EvCall (c : call) (ret : Z) (buf : string)
    (* a capability call, the code it returned and what it left in the
       buffer (of interest for the get calls only) *)
| EvStrcmp (buf lit : string) (ret : Z)
    (* [ret = strcmp(buf, lit)] was executed *)
| EvEinval
    (* [ret = -EINVAL] was executed: the step does not serve this mode *)
| EvCheckStep (cid ret : Z)          (* [check_step_result(cid, ret)] *)
| EvTestResult (cid ret : Z)         (* [print_test_result(cid, ret)] *)
| EvLog (cid : Z) (msg : string)     (* [print_log(LOG_TAG, cid, msg)] *)
| EvUsage                            (* [print_usage()] *)
| EvDiscover (ret base count : Z).   (* [check_greybus_gpio(&base, &count)] *)

(** Modelled from the spec: the line-capability layer ([commsteps.h]) is
    not among the sources; the spec gives its interface (activate,
    deactivate, get and set of direction, value and edge type, the line
    count, each of which may fail).  It is a parameter of the driver: a
    state [W] of the controller and what each call returns there. *)
Record capability (W : Type) := {
  cap_call : call -> W -> Z * string * W;
  cap_check_greybus_gpio : W -> Z * Z * Z * W
}.
Arguments cap_call {W}.
Arguments cap_check_greybus_gpio {W}.

(** ** Observations on traces *)

Definition calls (t : list event) : list call :=
  flat_map (fun e => match e with EvCall c _ _ => [c] | _ => [] end) t.

(** The lines a call addresses. *)
Definition targets (c : call) : list Z :=
  match c with
  | Get_greybus_gpio_count _ _ => []
  | Activate_gpio_pin _ pin => [pin]
  | Activate_gpio_multiple_pin _ p1 p2 p3 => [p1; p2; p3]
  | Deactivate_gpio_pin _ pin => [pin]
  | Deactivate_gpio_multiple_pin _ p1 p2 p3 => [p1; p2; p3]
  | Get_gpio_direction _ pin _ => [pin]
  | Set_gpio_direction _ pin _ _ => [pin]
  | Get_gpio_value _ pin _ => [pin]
  | Set_gpio_value _ pin _ _ => [pin]
  | Get_gpio_edge _ pin _ => [pin]
  | Set_gpio_edge _ pin _ _ => [pin]
  end.

Definition is_activate (c : call) : bool :=
  match c with
  | Activate_gpio_pin _ _ | Activate_gpio_multiple_pin _ _ _ _ => true
  | _ => false
  end.

Definition is_deactivate (c : call) : bool :=
  match c with
  | Deactivate_gpio_pin _ _ | Deactivate_gpio_multiple_pin _ _ _ _ => true
  | _ => false
  end.

Definition is_get (c : call) : bool :=
  match c with
  | Get_gpio_direction _ _ _ | Get_gpio_value _ _ _ | Get_gpio_edge _ _ _ =>
      true
  | _ => false
  end.

(** The lines addressed by the calls of a list, in order. *)
Definition lines (cs : list call) : list Z := flat_map targets cs.

(** The lines the activate calls of a list name. *)
Definition activated (cs : list call) : list Z :=
  lines (filter is_activate cs).

(** The values handed to [print_test_result]. *)
Definition reported (t : list event) : list Z :=
  flat_map (fun e => match e with EvTestResult _ r => [r] | _ => [] end) t.

(** The values handed to [check_step_result] and [print_test_result]. *)
Definition step_results (t : list event) : list Z :=
  flat_map (fun e => match e with
                     | EvCheckStep _ r | EvTestResult _ r => [r]
                     | _ => []
                     end) t.

(** The part of a trace before the first [print_test_result]. *)
Fixpoint before_report (t : list event) : list event :=
  match t with
  | [] => []
  | EvTestResult _ _ :: _ => []
  | e :: t' => e :: before_report t'
  end.

(** The part of a trace after the first [print_test_result]. *)
Fixpoint after_report (t : list event) : list event :=
  match t with
  | [] => []
  | EvTestResult _ _ :: t' => t'
  | _ :: t' => after_report t'
  end.

(** What an event writes to the variable [ret] of the test case. *)
Definition assigns (e : event) : option Z :=
  match e with
  | EvCall _ r _ => Some r
  | EvStrcmp _ _ r => Some r
  | EvEinval => Some (- EINVAL)
  | _ => None
  end.

(** The value of [ret] after the events of [t], from the value [r0]. *)
Fixpoint last_result (r0 : Z) (t : list event) : Z :=
  match t with
  | [] => r0
  | e :: t' =>
      last_result (match assigns e with Some r => r | None => r0 end) t'
  end.

(** The reply of the last get call of a trace. *)
Fixpoint last_get (t : list event) : option (Z * string) :=
  match t with
  | [] => None
  | e :: t' =>
      match last_get t' with
      | Some r => Some r
      | None =>
          match e with
          | EvCall c ret buf => if is_get c then Some (ret, buf) else None
          | _ => None
          end
      end
  end.

(** What may come right after what.  A [strcmp] comes only after a get
    call that returned 0, and compares what that call left in the buffer;
    a [check_step_result] or [print_test_result] that comes right after a
    get call that failed is handed the code the call returned. *)
Definition follows (e1 e2 : event) : Prop :=
  match e2 with
  | EvStrcmp buf lit r =>
      match e1 with
      | EvCall c ret b => is_get c = true /\ ret = 0 /\ b = buf
      | _ => False
      end /\ r = strcmp buf lit
  | EvCheckStep _ r | EvTestResult _ r =>
      match e1 with
      | EvCall c ret _ => is_get c = true -> ret <> 0 -> r = ret
      | _ => True
      end
  | _ => True
  end.

Fixpoint chain (prev : event) (t : list event) : Prop :=
  match t with
  | [] => True
  | e :: t' => follows prev e /\ chain e t'
  end.

(** [follows] holds all along the trace, which does not start with a
    [strcmp]. *)
Definition verification_sound (t : list event) : Prop := chain EvUsage t.

(** The deactivate calls a list of calls ends with. *)
Fixpoint recovery (cs : list call) : list call :=
  match cs with
  | [] => []
  | c :: cs' => if forallb is_deactivate cs then cs else recovery cs'
  end.

(** A list of lines that repeats the triple [l1; l2; l3]. *)
Fixpoint triples (l1 l2 l3 : Z) (ls : list Z) : Prop :=
  match ls with
  | [] => True
  | a :: b :: c :: rest => a = l1 /\ b = l2 /\ c = l3 /\ triples l1 l2 l3 rest
  | _ => False
  end.

(** [b; b + 1; ...; b + n - 1]. *)
Definition line_range (b : Z) (n : Z) : list Z :=
  map (fun k => b + Z.of_nat k) (seq 0 (Z.to_nat n)).

(** [i; i + 1; ...], [n] numbers: the values the counter of a loop of
    [n] passes takes from [i] on. *)
Fixpoint iota (i : Z) (n : nat) : list Z :=
  match n with
  | O => []
  | S n' => i :: iota (i + 1) n'
  end.

(** A trace made of one call per index, [mk i] for the index [i]. *)
Inductive call_run (mk : Z -> call) : list Z -> list event -> Prop :=
| call_run_nil : call_run mk [] []
| call_run_cons i js ret buf t :
    call_run mk js t ->
    call_run mk (i :: js) (EvCall (mk i) ret buf :: t).

(** The absolute line numbers of the three offsets. *)
Definition pin1 (info : gpio_app_info) : Z := base_pin info + gpio_pin1 info.
Definition pin2 (info : gpio_app_info) : Z := base_pin info + gpio_pin2 info.
Definition pin3 (info : gpio_app_info) : Z := base_pin info + gpio_pin3 info.

(** ** The driver *)

Section Driver.

Context {W : Type} (cap : capability W).

(** A computation: from the state of the controller to a value, the next
    state and the events of the computation. *)
Definition M (A : Type) : Type := W -> A * W * list event.

Definition mret {A} (a : A) : M A := fun w => (a, w, []).

Definition bind {A B} (m : M A) (f : A -> M B) : M B :=
  fun w =>
    let '(a, w1, t1) := m w in
    let '(b, w2, t2) := f a w1 in
    (b, w2, (t1 ++ t2)%list).

Notation "x <- m ;; k" := (bind m (fun x => k))
  (at level 61, m at next level, right associativity).
Notation "' pat <- m ;; k" := (bind m (fun x => match x with pat => k end))
  (at level 61, pat pattern, m at next level, right associativity).
Notation "m ;; k" := (bind m (fun _ => k))
  (at level 61, right associativity).

Definition emit (e : event) : M unit := fun w => (tt, w, [e]).

Definition invoke (c : call) : M (Z * string) :=
  fun w =>
    let '(ret, buf, w') := cap_call cap c w in
    ((ret, buf), w', [EvCall c ret buf]).

(** *** [commsteps.h] *)

Definition get_greybus_gpio_count (base size : Z) : M (Z * string) :=
  invoke (Get_greybus_gpio_count base size).

Definition activate_gpio_pin (cid pin : Z) : M Z :=
  '(ret, _) <- invoke (Activate_gpio_pin cid pin);; mret ret.

Definition activate_gpio_multiple_pin (cid pin1 pin2 pin3 : Z) : M Z :=
  '(ret, _) <- invoke (Activate_gpio_multiple_pin cid pin1 pin2 pin3);;
  mret ret.

Definition deactivate_gpio_pin (cid pin : Z) : M Z :=
  '(ret, _) <- invoke (Deactivate_gpio_pin cid pin);; mret ret.

Definition deactivate_gpio_multiple_pin (cid pin1 pin2 pin3 : Z) : M Z :=
  '(ret, _) <- invoke (Deactivate_gpio_multiple_pin cid pin1 pin2 pin3);;
  mret ret.

Definition get_gpio_direction (cid pin size : Z) : M (Z * string) :=
  invoke (Get_gpio_direction cid pin size).

Definition set_gpio_direction (cid pin : Z) (buf : string) (size : Z)
  : M Z :=
  '(ret, _) <- invoke (Set_gpio_direction cid pin buf size);; mret ret.

Definition get_gpio_value (cid pin size : Z) : M (Z * string) :=
  invoke (Get_gpio_value cid pin size).

Definition set_gpio_value (cid pin : Z) (buf : string) (size : Z) : M Z :=
  '(ret, _) <- invoke (Set_gpio_value cid pin buf size);; mret ret.

Definition get_gpio_edge (cid pin size : Z) : M (Z * string) :=
  invoke (Get_gpio_edge cid pin size).

Definition set_gpio_edge (cid pin : Z) (buf : string) (size : Z) : M Z :=
  '(ret, _) <- invoke (Set_gpio_edge cid pin buf size);; mret ret.

Definition check_greybus_gpio : M (Z * Z * Z) :=
  fun w =>
    let '(ret, base, count, w') := cap_check_greybus_gpio cap w in
    ((ret, base, count), w', [EvDiscover ret base count]).

(** *** [libfwtest.h] *)

(** Modelled from the spec: [check_step_result], [print_test_result] and
    [print_log] of [libfwtest.h] are not among the sources; the spec
    counts the logging and printing of results among the external
    collaborators, and has a failed step go on to the next one.  Each is
    an event of the trace and changes nothing else. *)
Definition check_step_result (cid ret : Z) : M unit :=
  emit (EvCheckStep cid ret).

Definition print_test_result (cid ret : Z) : M unit :=
  emit (EvTestResult cid ret).

Definition print_log (cid : Z) (msg : string) : M unit :=
  emit (EvLog cid msg).

Definition print_usage : M unit := emit EvUsage.

(** *** Statements *)

(** [ret = strcmp(buf, lit);] *)
Definition strcmpM (buf lit : string) : M Z :=
  let r := strcmp buf lit in
  emit (EvStrcmp buf lit r);; mret r.

(** [ret = -EINVAL;] *)
Definition einval : M Z := emit EvEinval;; mret (- EINVAL).

(** [for (i = 0; i < bound; i++) body], threading [ret] through the
    passes: [body i ret] is the value of [ret] after the pass. *)
Fixpoint for_loop (n : nat) (i : Z) (body : Z -> Z -> M Z) (ret : Z)
  : M Z :=
  match n with
  | O => mret ret
  | S n' => ret' <- body i ret;; for_loop n' (i + 1) body ret'
  end.

Definition for_lt (bound : Z) (body : Z -> Z -> M Z) (ret : Z) : M Z :=
  for_loop (Z.to_nat bound) 0 body ret.

(** *** The test cases

    One definition per test case, statement by statement: [strcpy(buf,
    x)] is [let buf := x], a get call binds the code it returns and the
    buffer it fills, and every other assignment to [ret] rebinds
    [ret]. *)

(** [info->max_count = atoi(countbuf)] writes to the structure of the
    caller; the test case reads it back for its log line, and [main]
    returns without looking at it again. *)
Definition ARA_263_get_count (info : gpio_app_info) : M Z :=
  '(ret, countbuf) <- get_greybus_gpio_count (base_pin info) 4;;
  let info := set_max_count info (uint16 (atoi countbuf)) in
  let gpiostr := append "GPIO count: " (utoa (max_count info)) in
  print_log (case_id info) gpiostr;;
  print_test_result (case_id info) ret;;
  mret ret.

Definition ARA_264_multiple_activate (info : gpio_app_info) : M Z :=
  let ret := 0 in
  ret <- (if is_num_type info "m" then
            ret <- activate_gpio_multiple_pin (case_id info)
                (base_pin info + gpio_pin1 info)
                (base_pin info + gpio_pin2 info)
                (base_pin info + gpio_pin3 info);;
            mret ret
          else if is_num_type info "s" then
            ret <- activate_gpio_pin (case_id info)
                (base_pin info + gpio_pin1 info);;
            mret ret
          else
            ret <- einval;;
            mret ret);;
  print_test_result (case_id info) ret;;
  ret <- (if is_num_type info "m" then
            ret <- deactivate_gpio_multiple_pin (case_id info)
                (base_pin info + gpio_pin1 info)
                (base_pin info + gpio_pin2 info)
                (base_pin info + gpio_pin3 info);;
            mret ret
          else if is_num_type info "s" then
            ret <- deactivate_gpio_pin (case_id info)
                (base_pin info + gpio_pin1 info);;
            mret ret
          else
            ret <- einval;;
            mret ret);;
  mret ret.

Definition ARA_267_multiple_deactivate (info : gpio_app_info) : M Z :=
  let ret := 0 in
  ret <- (if is_num_type info "m" then
            ret <- activate_gpio_multiple_pin (case_id info)
                (base_pin info + gpio_pin1 info)
                (base_pin info + gpio_pin2 info)
                (base_pin info + gpio_pin3 info);;
            mret ret
          else if is_num_type info "s" then
            ret <- activate_gpio_pin (case_id info)
                (base_pin info + gpio_pin1 info);;
            mret ret
          else
            ret <- einval;;
            mret ret);;
  check_step_result (case_id info) ret;;
  ret <- (if is_num_type info "m" then
            ret <- deactivate_gpio_multiple_pin (case_id info)
                (base_pin info + gpio_pin1 info)
                (base_pin info + gpio_pin2 info)
                (base_pin info + gpio_pin3 info);;
            mret ret
          else if is_num_type info "s" then
            ret <- deactivate_gpio_pin (case_id info)
                (base_pin info + gpio_pin1 info);;
            mret ret
          else
            ret <- einval;;
            mret ret);;
  print_test_result (case_id info) ret;;
  mret ret.

Definition ARA_270_multiple_direction (info : gpio_app_info) : M Z :=
  let ret := 0 in
  ret <- (if is_num_type info "m" then
            ret <- activate_gpio_multiple_pin (case_id info)
                (base_pin info + gpio_pin1 info)
                (base_pin info + gpio_pin2 info)
                (base_pin info + gpio_pin3 info);;
            mret ret
          else if is_num_type info "s" then
            ret <- activate_gpio_pin (case_id info)
                (base_pin info + gpio_pin1 info);;
            mret ret
          else
            ret <- einval;;
            mret ret);;
  check_step_result (case_id info) ret;;
  ret <- (if is_num_type info "m" then
            '(ret, directbuf) <- get_gpio_direction (case_id info)
                (base_pin info + gpio_pin1 info) 4;;
            '(ret, directbuf) <- get_gpio_direction (case_id info)
                (base_pin info + gpio_pin2 info) 4;;
            '(ret, directbuf) <- get_gpio_direction (case_id info)
                (base_pin info + gpio_pin3 info) 4;;
            mret ret
          else if is_num_type info "s" then
            '(ret, directbuf) <- get_gpio_direction (case_id info)
                (base_pin info + gpio_pin1 info) 4;;
            mret ret
          else
            ret <- einval;;
            mret ret);;
  print_test_result (case_id info) ret;;
  ret <- (if is_num_type info "m" then
            ret <- deactivate_gpio_multiple_pin (case_id info)
                (base_pin info + gpio_pin1 info)
                (base_pin info + gpio_pin2 info)
                (base_pin info + gpio_pin3 info);;
            mret ret
          else if is_num_type info "s" then
            ret <- deactivate_gpio_pin (case_id info)
                (base_pin info + gpio_pin1 info);;
            mret ret
          else
            ret <- einval;;
            mret ret);;
  mret ret.

Definition ARA_271_multiple_times_direction (info : gpio_app_info) : M Z :=
  let ret := 0 in
  let test_times := 10 in
  ret <- (if is_num_type info "s" then
            ret <- activate_gpio_pin (case_id info)
                (base_pin info + gpio_pin1 info);;
            mret ret
          else
            ret <- einval;;
            mret ret);;
  check_step_result (case_id info) ret;;
  ret <- for_lt test_times (fun i ret =>
      ret <- (if is_num_type info "s" then
                '(ret, directbuf) <- get_gpio_direction (case_id info)
                    (base_pin info + gpio_pin1 info) 4;;
                mret ret
              else
                ret <- einval;;
                mret ret);;
      mret ret) ret;;
  print_test_result (case_id info) ret;;
  ret <- (if is_num_type info "s" then
            ret <- deactivate_gpio_pin (case_id info)
                (base_pin info + gpio_pin1 info);;
            mret ret
          else
            ret <- einval;;
            mret ret);;
  mret ret.

Definition ARA_272_all_direction (info : gpio_app_info) : M Z :=
  let ret := 0 in
  ret <- (if is_num_type info "a" then
            ret <- for_lt (max_count info) (fun i ret =>
                ret <- activate_gpio_pin (case_id info) (base_pin info + i);;
                mret ret) ret;;
            mret ret
          else if is_num_type info "m" then
            ret <- activate_gpio_multiple_pin (case_id info)
                (base_pin info + gpio_pin1 info)
                (base_pin info + gpio_pin2 info)
                (base_pin info + gpio_pin3 info);;
            mret ret
          else if is_num_type info "s" then
            ret <- activate_gpio_pin (case_id info)
                (base_pin info + gpio_pin1 info);;
            mret ret
          else
            ret <- einval;;
            mret ret);;
  check_step_result (case_id info) ret;;
  ret <- (if is_num_type info "a" then
            ret <- for_lt (max_count info) (fun i ret =>
                '(ret, directbuf) <- get_gpio_direction (case_id info)
                    (base_pin info + i) 4;;
                mret ret) ret;;
            mret ret
          else if is_num_type info "m" then
            '(ret, directbuf) <- get_gpio_direction (case_id info)
                (base_pin info + gpio_pin1 info) 4;;
            '(ret, directbuf) <- get_gpio_direction (case_id info)
                (base_pin info + gpio_pin2 info) 4;;
            '(ret, directbuf) <- get_gpio_direction (case_id info)
                (base_pin info + gpio_pin3 info) 4;;
            mret ret
          else if is_num_type info "s" then
            '(ret, directbuf) <- get_gpio_direction (case_id info)
                (base_pin info + gpio_pin1 info) 4;;
            mret ret
          else
            ret <- einval;;
            mret ret);;
  print_test_result (case_id info) ret;;
  ret <- (if is_num_type info "a" then
            ret <- for_lt (max_count info) (fun i ret =>
                ret <- deactivate_gpio_pin (case_id info)
                    (base_pin info + i);;
                mret ret) ret;;
            mret ret
          else if is_num_type info "m" then
            ret <- deactivate_gpio_multiple_pin (case_id info)
                (base_pin info + gpio_pin1 info)
                (base_pin info + gpio_pin2 info)
                (base_pin info + gpio_pin3 info);;
            mret ret
          else if is_num_type info "s" then
            ret <- deactivate_gpio_pin (case_id info)
                (base_pin info + gpio_pin1 info);;
            mret ret
          else
            ret <- einval;;
            mret ret);;
  mret ret.

Definition ARA_273_multiple_input (info : gpio_app_info) : M Z :=
  let ret := 0 in
  let directbuf := "in" in
  ret <- (if is_num_type info "m" then
            ret <- activate_gpio_multiple_pin (case_id info)
                (base_pin info + gpio_pin1 info)
                (base_pin info + gpio_pin2 info)
                (base_pin info + gpio_pin3 info);;
            mret ret
          else if is_num_type info "s" then
            ret <- activate_gpio_pin (case_id info)
                (base_pin info + gpio_pin1 info);;
            mret ret
          else
            ret <- einval;;
            mret ret);;
  check_step_result (case_id info) ret;;
  ret <- (if is_num_type info "m" then
            let buf := directbuf in
            ret <- set_gpio_direction (case_id info)
                (base_pin info + gpio_pin1 info) buf 4;;
            ret <- set_gpio_direction (case_id info)
                (base_pin info + gpio_pin2 info) buf 4;;
            ret <- set_gpio_direction (case_id info)
                (base_pin info + gpio_pin3 info) buf 4;;
            mret ret
          else if is_num_type info "s" then
            let buf := directbuf in
            ret <- set_gpio_direction (case_id info)
                (base_pin info + gpio_pin1 info) buf 4;;
            mret ret
          else
            ret <- einval;;
            mret ret);;
  check_step_result (case_id info) ret;;
  ret <- (if is_num_type info "m" then
            '(ret, buf) <- get_gpio_direction (case_id info)
                (base_pin info + gpio_pin1 info) 4;;
            ret <- (if lnot ret then strcmpM buf directbuf else mret ret);;
            '(ret, buf) <- get_gpio_direction (case_id info)
                (base_pin info + gpio_pin2 info) 4;;
            ret <- (if lnot ret then strcmpM buf directbuf else mret ret);;
            '(ret, buf) <- get_gpio_direction (case_id info)
                (base_pin info + gpio_pin3 info) 4;;
            ret <- (if lnot ret then strcmpM buf directbuf else mret ret);;
            mret ret
          else if is_num_type info "s" then
            '(ret, buf) <- get_gpio_direction (case_id info)
                (base_pin info + gpio_pin1 info) 4;;
            ret <- (if lnot ret then strcmpM buf directbuf else mret ret);;
            mret ret
          else
            ret <- einval;;
            mret ret);;
  print_test_result (case_id info) ret;;
  ret <- (if is_num_type info "m" then
            ret <- deactivate_gpio_multiple_pin (case_id info)
                (base_pin info + gpio_pin1 info)
                (base_pin info + gpio_pin2 info)
                (base_pin info + gpio_pin3 info);;
            mret ret
          else if is_num_type info "s" then
            ret <- deactivate_gpio_pin (case_id info)
                (base_pin info + gpio_pin1 info);;
            mret ret
          else
            ret <- einval;;
            mret ret);;
  mret ret.

Definition ARA_274_multiple_times_input (info : gpio_app_info) : M Z :=
  let ret := 0 in
  let directbuf := "in" in
  let test_times := 10 in
  ret <- (if is_num_type info "s" then
            ret <- activate_gpio_pin (case_id info)
                (base_pin info + gpio_pin1 info);;
            mret ret
          else
            ret <- einval;;
            mret ret);;
  check_step_result (case_id info) ret;;
  ret <- for_lt test_times (fun i ret =>
      ret <- (if is_num_type info "s" then
                let buf := directbuf in
                ret <- set_gpio_direction (case_id info)
                    (base_pin info + gpio_pin1 info) buf 4;;
                mret ret
              else
                ret <- einval;;
                mret ret);;
      mret ret) ret;;
  check_step_result (case_id info) ret;;
  ret <- (if is_num_type info "s" then
            '(ret, buf) <- get_gpio_direction (case_id info)
                (base_pin info + gpio_pin1 info) 4;;
            ret <- (if lnot ret then strcmpM buf directbuf else mret ret);;
            mret ret
          else
            ret <- einval;;
            mret ret);;
  print_test_result (case_id info) ret;;
  ret <- (if is_num_type info "s" then
            ret <- deactivate_gpio_pin (case_id info)
                (base_pin info + gpio_pin1 info);;
            mret ret
          else
            ret <- einval;;
            mret ret);;
  mret ret.

Definition ARA_276_multiple_output (info : gpio_app_info) : M Z :=
  let ret := 0 in
  let directbuf := "out" in
  ret <- (if is_num_type info "m" then
            ret <- activate_gpio_multiple_pin (case_id info)
                (base_pin info + gpio_pin1 info)
                (base_pin info + gpio_pin2 info)
                (base_pin info + gpio_pin3 info);;
            mret ret
          else if is_num_type info "s" then
            ret <- activate_gpio_pin (case_id info)
                (base_pin info + gpio_pin1 info);;
            mret ret
          else
            ret <- einval;;
            mret ret);;
  check_step_result (case_id info) ret;;
  ret <- (if is_num_type info "m" then
            let buf := directbuf in
            ret <- set_gpio_direction (case_id info)
                (base_pin info + gpio_pin1 info) buf 4;;
            ret <- set_gpio_direction (case_id info)
                (base_pin info + gpio_pin2 info) buf 4;;
            ret <- set_gpio_direction (case_id info)
                (base_pin info + gpio_pin3 info) buf 4;;
            mret ret
          else if is_num_type info "s" then
            let buf := directbuf in
            ret <- set_gpio_direction (case_id info)
                (base_pin info + gpio_pin1 info) buf 4;;
            mret ret
          else
            ret <- einval;;
            mret ret);;
  check_step_result (case_id info) ret;;
  ret <- (if is_num_type info "m" then
            '(ret, buf) <- get_gpio_direction (case_id info)
                (base_pin info + gpio_pin1 info) 4;;
            ret <- (if lnot ret then strcmpM buf directbuf else mret ret);;
            '(ret, buf) <- get_gpio_direction (case_id info)
                (base_pin info + gpio_pin2 info) 4;;
            ret <- (if lnot ret then strcmpM buf directbuf else mret ret);;
            '(ret, buf) <- get_gpio_direction (case_id info)
                (base_pin info + gpio_pin3 info) 4;;
            ret <- (if lnot ret then strcmpM buf directbuf else mret ret);;
            mret ret
          else if is_num_type info "s" then
            '(ret, buf) <- get_gpio_direction (case_id info)
                (base_pin info + gpio_pin1 info) 4;;
            ret <- (if lnot ret then strcmpM buf directbuf else mret ret);;
            mret ret
          else
            ret <- einval;;
            mret ret);;
  print_test_result (case_id info) ret;;
  ret <- (if is_num_type info "m" then
            ret <- deactivate_gpio_multiple_pin (case_id info)
                (base_pin info + gpio_pin1 info)
                (base_pin info + gpio_pin2 info)
                (base_pin info + gpio_pin3 info);;
            mret ret
          else if is_num_type info "s" then
            ret <- deactivate_gpio_pin (case_id info)
                (base_pin info + gpio_pin1 info);;
            mret ret
          else
            ret <- einval;;
            mret ret);;
  mret ret.

Definition ARA_277_multiple_times_output (info : gpio_app_info) : M Z :=
  let ret := 0 in
  let directbuf := "out" in
  let test_times := 10 in
  ret <- (if is_num_type info "s" then
            ret <- activate_gpio_pin (case_id info)
                (base_pin info + gpio_pin1 info);;
            mret ret
          else
            ret <- einval;;
            mret ret);;
  check_step_result (case_id info) ret;;
  ret <- for_lt test_times (fun i ret =>
      ret <- (if is_num_type info "s" then
                let buf := directbuf in
                ret <- set_gpio_direction (case_id info)
                    (base_pin info + gpio_pin1 info) buf 4;;
                mret ret
              else
                ret <- einval;;
                mret ret);;
      mret ret) ret;;
  check_step_result (case_id info) ret;;
  ret <- (if is_num_type info "s" then
            '(ret, buf) <- get_gpio_direction (case_id info)
                (base_pin info + gpio_pin1 info) 4;;
            ret <- (if lnot ret then strcmpM buf directbuf else mret ret);;
            mret ret
          else
            ret <- einval;;
            mret ret);;
  print_test_result (case_id info) ret;;
  ret <- (if is_num_type info "s" then
            ret <- deactivate_gpio_pin (case_id info)
                (base_pin info + gpio_pin1 info);;
            mret ret
          else
            ret <- einval;;
            mret ret);;
  mret ret.

Definition ARA_279_get_value (info : gpio_app_info) : M Z :=
  let ret := 0 in
  let directbuf := "in" in
  ret <- (if is_num_type info "m" then
            ret <- activate_gpio_multiple_pin (case_id info)
                (base_pin info + gpio_pin1 info)
                (base_pin info + gpio_pin2 info)
                (base_pin info + gpio_pin3 info);;
            mret ret
          else if is_num_type info "s" then
            ret <- activate_gpio_pin (case_id info)
                (base_pin info + gpio_pin1 info);;
            mret ret
          else
            ret <- einval;;
            mret ret);;
  check_step_result (case_id info) ret;;
  ret <- (if is_num_type info "m" then
            let buf := directbuf in
            ret <- set_gpio_direction (case_id info)
                (base_pin info + gpio_pin1 info) buf 4;;
            ret <- set_gpio_direction (case_id info)
                (base_pin info + gpio_pin2 info) buf 4;;
            ret <- set_gpio_direction (case_id info)
                (base_pin info + gpio_pin3 info) buf 4;;
            mret ret
          else if is_num_type info "s" then
            let buf := directbuf in
            ret <- set_gpio_direction (case_id info)
                (base_pin info + gpio_pin1 info) buf 4;;
            mret ret
          else
            ret <- einval;;
            mret ret);;
  check_step_result (case_id info) ret;;
  ret <- (if is_num_type info "m" then
            '(ret, buf) <- get_gpio_value (case_id info)
                (base_pin info + gpio_pin1 info) 4;;
            '(ret, buf) <- get_gpio_value (case_id info)
                (base_pin info + gpio_pin2 info) 4;;
            '(ret, buf) <- get_gpio_value (case_id info)
                (base_pin info + gpio_pin3 info) 4;;
            mret ret
          else if is_num_type info "s" then
            '(ret, buf) <- get_gpio_value (case_id info)
                (base_pin info + gpio_pin1 info) 4;;
            mret ret
          else
            ret <- einval;;
            mret ret);;
  print_test_result (case_id info) ret;;
  ret <- (if is_num_type info "m" then
            ret <- deactivate_gpio_multiple_pin (case_id info)
                (base_pin info + gpio_pin1 info)
                (base_pin info + gpio_pin2 info)
                (base_pin info + gpio_pin3 info);;
            mret ret
          else if is_num_type info "s" then
            ret <- deactivate_gpio_pin (case_id info)
                (base_pin info + gpio_pin1 info);;
            mret ret
          else
            ret <- einval;;
            mret ret);;
  mret ret.

Definition ARA_281_set_value_high (info : gpio_app_info) : M Z :=
  let ret := 0 in
  let directbuf := "out" in
  let valuebuf := "1" in
  ret <- (if is_num_type info "s" then
            ret <- activate_gpio_pin (case_id info)
                (base_pin info + gpio_pin1 info);;
            mret ret
          else
            ret <- einval;;
            mret ret);;
  check_step_result (case_id info) ret;;
  ret <- (if is_num_type info "s" then
            let buf := directbuf in
            ret <- set_gpio_direction (case_id info)
                (base_pin info + gpio_pin1 info) buf 4;;
            mret ret
          else
            ret <- einval;;
            mret ret);;
  check_step_result (case_id info) ret;;
  ret <- (if is_num_type info "s" then
            let buf := valuebuf in
            ret <- set_gpio_value (case_id info)
                (base_pin info + gpio_pin1 info) buf 4;;
            mret ret
          else
            ret <- einval;;
            mret ret);;
  check_step_result (case_id info) ret;;
  ret <- (if is_num_type info "s" then
            '(ret, buf) <- get_gpio_direction (case_id info)
                (base_pin info + gpio_pin1 info) 4;;
            ret <- (if lnot ret then strcmpM buf directbuf else mret ret);;
            mret ret
          else
            ret <- einval;;
            mret ret);;
  check_step_result (case_id info) ret;;
  ret <- (if is_num_type info "s" then
            '(ret, buf) <- get_gpio_value (case_id info)
                (base_pin info + gpio_pin1 info) 4;;
            ret <- (if lnot ret then strcmpM buf valuebuf else mret ret);;
            mret ret
          else
            ret <- einval;;
            mret ret);;
  print_test_result (case_id info) ret;;
  ret <- (if is_num_type info "s" then
            ret <- deactivate_gpio_pin (case_id info)
                (base_pin info + gpio_pin1 info);;
            mret ret
          else
            ret <- einval;;
            mret ret);;
  mret ret.

Definition ARA_282_set_value_low (info : gpio_app_info) : M Z :=
  let ret := 0 in
  let directbuf := "out" in
  let valuebuf := "0" in
  ret <- (if is_num_type info "s" then
            ret <- activate_gpio_pin (case_id info)
                (base_pin info + gpio_pin1 info);;
            mret ret
          else
            ret <- einval;;
            mret ret);;
  check_step_result (case_id info) ret;;
  ret <- (if is_num_type info "s" then
            let buf := directbuf in
            ret <- set_gpio_direction (case_id info)
                (base_pin info + gpio_pin1 info) buf 4;;
            mret ret
          else
            ret <- einval;;
            mret ret);;
  check_step_result (case_id info) ret;;
  ret <- (if is_num_type info "s" then
            let buf := valuebuf in
            ret <- set_gpio_value (case_id info)
                (base_pin info + gpio_pin1 info) buf 4;;
            mret ret
          else
            ret <- einval;;
            mret ret);;
  check_step_result (case_id info) ret;;
  ret <- (if is_num_type info "s" then
            '(ret, buf) <- get_gpio_direction (case_id info)
                (base_pin info + gpio_pin1 info) 4;;
            ret <- (if lnot ret then strcmpM buf directbuf else mret ret);;
            mret ret
          else
            ret <- einval;;
            mret ret);;
  check_step_result (case_id info) ret;;
  ret <- (if is_num_type info "s" then
            '(ret, buf) <- get_gpio_value (case_id info)
                (base_pin info + gpio_pin1 info) 4;;
            ret <- (if lnot ret then strcmpM buf valuebuf else mret ret);;
            mret ret
          else
            ret <- einval;;
            mret ret);;
  print_test_result (case_id info) ret;;
  ret <- (if is_num_type info "s" then
            ret <- deactivate_gpio_pin (case_id info)
                (base_pin info + gpio_pin1 info);;
            mret ret
          else
            ret <- einval;;
            mret ret);;
  mret ret.

Definition ARA_286_set_edge_rising (info : gpio_app_info) : M Z :=
  let ret := 0 in
  let directbuf := "out" in
  let valuebuf := "1" in
  let edgebuf := "rising" in
  ret <- (if is_num_type info "s" then
            ret <- activate_gpio_pin (case_id info)
                (base_pin info + gpio_pin1 info);;
            mret ret
          else
            ret <- einval;;
            mret ret);;
  check_step_result (case_id info) ret;;
  ret <- (if is_num_type info "s" then
            let buf := directbuf in
            ret <- set_gpio_direction (case_id info)
                (base_pin info + gpio_pin1 info) buf 8;;
            mret ret
          else
            ret <- einval;;
            mret ret);;
  check_step_result (case_id info) ret;;
  ret <- (if is_num_type info "s" then
            let buf := valuebuf in
            ret <- set_gpio_value (case_id info)
                (base_pin info + gpio_pin1 info) buf 8;;
            mret ret
          else
            ret <- einval;;
            mret ret);;
  check_step_result (case_id info) ret;;
  ret <- (if is_num_type info "s" then
            let buf := edgebuf in
            ret <- set_gpio_edge (case_id info)
                (base_pin info + gpio_pin1 info) buf 8;;
            mret ret
          else
            ret <- einval;;
            mret ret);;
  check_step_result (case_id info) ret;;
  ret <- (if is_num_type info "s" then
            '(ret, buf) <- get_gpio_edge (case_id info)
                (base_pin info + gpio_pin1 info) 8;;
            ret <- (if lnot ret then strcmpM buf edgebuf else mret ret);;
            mret ret
          else
            ret <- einval;;
            mret ret);;
  print_test_result (case_id info) ret;;
  ret <- (if is_num_type info "s" then
            ret <- deactivate_gpio_pin (case_id info)
                (base_pin info + gpio_pin1 info);;
            mret ret
          else
            ret <- einval;;
            mret ret);;
  mret ret.

Definition ARA_287_set_edge_falling (info : gpio_app_info) : M Z :=
  let ret := 0 in
  let directbuf := "out" in
  let valuebuf := "1" in
  let edgebuf := "falling" in
  ret <- (if is_num_type info "s" then
            ret <- activate_gpio_pin (case_id info)
                (base_pin info + gpio_pin1 info);;
            mret ret
          else
            ret <- einval;;
            mret ret);;
  check_step_result (case_id info) ret;;
  ret <- (if is_num_type info "s" then
            let buf := directbuf in
            ret <- set_gpio_direction (case_id info)
                (base_pin info + gpio_pin1 info) buf 8;;
            mret ret
          else
            ret <- einval;;
            mret ret);;
  check_step_result (case_id info) ret;;
  ret <- (if is_num_type info "s" then
            let buf := valuebuf in
            ret <- set_gpio_value (case_id info)
                (base_pin info + gpio_pin1 info) buf 8;;
            mret ret
          else
            ret <- einval;;
            mret ret);;
  check_step_result (case_id info) ret;;
  ret <- (if is_num_type info "s" then
            let buf := edgebuf in
            ret <- set_gpio_edge (case_id info)
                (base_pin info + gpio_pin1 info) buf 8;;
            mret ret
          else
            ret <- einval;;
            mret ret);;
  check_step_result (case_id info) ret;;
  ret <- (if is_num_type info "s" then
            '(ret, buf) <- get_gpio_edge (case_id info)
                (base_pin info + gpio_pin1 info) 8;;
            ret <- (if lnot ret then strcmpM buf edgebuf else mret ret);;
            mret ret
          else
            ret <- einval;;
            mret ret);;
  print_test_result (case_id info) ret;;
  ret <- (if is_num_type info "s" then
            ret <- deactivate_gpio_pin (case_id info)
                (base_pin info + gpio_pin1 info);;
            mret ret
          else
            ret <- einval;;
            mret ret);;
  mret ret.

Definition ARA_288_set_edge_both (info : gpio_app_info) : M Z :=
  let ret := 0 in
  let directbuf := "out" in
  let valuebuf := "1" in
  let edgebuf := "both" in
  ret <- (if is_num_type info "s" then
            ret <- activate_gpio_pin (case_id info)
                (base_pin info + gpio_pin1 info);;
            mret ret
          else
            ret <- einval;;
            mret ret);;
  check_step_result (case_id info) ret;;
  ret <- (if is_num_type info "s" then
            let buf := directbuf in
            ret <- set_gpio_direction (case_id info)
                (base_pin info + gpio_pin1 info) buf 8;;
            mret ret
          else
            ret <- einval;;
            mret ret);;
  check_step_result (case_id info) ret;;
  ret <- (if is_num_type info "s" then
            let buf := valuebuf in
            ret <- set_gpio_value (case_id info)
                (base_pin info + gpio_pin1 info) buf 8;;
            mret ret
          else
            ret <- einval;;
            mret ret);;
  check_step_result (case_id info) ret;;
  ret <- (if is_num_type info "s" then
            let buf := edgebuf in
            ret <- set_gpio_edge (case_id info)
                (base_pin info + gpio_pin1 info) buf 8;;
            mret ret
          else
            ret <- einval;;
            mret ret);;
  check_step_result (case_id info) ret;;
  ret <- (if is_num_type info "s" then
            '(ret, buf) <- get_gpio_edge (case_id info)
                (base_pin info + gpio_pin1 info) 8;;
            ret <- (if lnot ret then strcmpM buf edgebuf else mret ret);;
            mret ret
          else
            ret <- einval;;
            mret ret);;
  print_test_result (case_id info) ret;;
  ret <- (if is_num_type info "s" then
            ret <- deactivate_gpio_pin (case_id info)
                (base_pin info + gpio_pin1 info);;
            mret ret
          else
            ret <- einval;;
            mret ret);;
  mret ret.

Definition ARA_409_input_to_output (info : gpio_app_info) : M Z :=
  let ret := 0 in
  let directbuf1 := "in" in
  let directbuf2 := "out" in
  let valuebuf := "1" in
  ret <- (if is_num_type info "s" then
            ret <- activate_gpio_pin (case_id info)
                (base_pin info + gpio_pin1 info);;
            mret ret
          else
            ret <- einval;;
            mret ret);;
  check_step_result (case_id info) ret;;
  ret <- (if is_num_type info "s" then
            let buf := directbuf1 in
            ret <- set_gpio_direction (case_id info)
                (base_pin info + gpio_pin1 info) buf 4;;
            mret ret
          else
            ret <- einval;;
            mret ret);;
  check_step_result (case_id info) ret;;
  ret <- (if is_num_type info "s" then
            '(ret, buf) <- get_gpio_value (case_id info)
                (base_pin info + gpio_pin1 info) 4;;
            mret ret
          else
            ret <- einval;;
            mret ret);;
  check_step_result (case_id info) ret;;
  ret <- (if is_num_type info "s" then
            ret <- deactivate_gpio_pin (case_id info)
                (base_pin info + gpio_pin1 info);;
            mret ret
          else
            ret <- einval;;
            mret ret);;
  check_step_result (case_id info) ret;;
  ret <- (if is_num_type info "s" then
            ret <- activate_gpio_pin (case_id info)
                (base_pin info + gpio_pin1 info);;
            mret ret
          else
            ret <- einval;;
            mret ret);;
  check_step_result (case_id info) ret;;
  ret <- (if is_num_type info "s" then
            let buf := directbuf2 in
            ret <- set_gpio_direction (case_id info)
                (base_pin info + gpio_pin1 info) buf 4;;
            mret ret
          else
            ret <- einval;;
            mret ret);;
  check_step_result (case_id info) ret;;
  ret <- (if is_num_type info "s" then
            let buf := valuebuf in
            ret <- set_gpio_value (case_id info)
                (base_pin info + gpio_pin1 info) buf 4;;
            mret ret
          else
            ret <- einval;;
            mret ret);;
  check_step_result (case_id info) ret;;
  ret <- (if is_num_type info "s" then
            '(ret, buf) <- get_gpio_value (case_id info)
                (base_pin info + gpio_pin1 info) 4;;
            ret <- (if lnot ret then strcmpM buf valuebuf else mret ret);;
            mret ret
          else
            ret <- einval;;
            mret ret);;
  print_test_result (case_id info) ret;;
  ret <- (if is_num_type info "s" then
            ret <- deactivate_gpio_pin (case_id info)
                (base_pin info + gpio_pin1 info);;
            mret ret
          else
            ret <- einval;;
            mret ret);;
  mret ret.

Definition ARA_410_output_to_input (info : gpio_app_info) : M Z :=
  let ret := 0 in
  let directbuf1 := "out" in
  let directbuf2 := "in" in
  let valuebuf := "1" in
  ret <- (if is_num_type info "s" then
            ret <- activate_gpio_pin (case_id info)
                (base_pin info + gpio_pin1 info);;
            mret ret
          else
            ret <- einval;;
            mret ret);;
  check_step_result (case_id info) ret;;
  ret <- (if is_num_type info "s" then
            let buf := directbuf1 in
            ret <- set_gpio_direction (case_id info)
                (base_pin info + gpio_pin1 info) buf 4;;
            mret ret
          else
            ret <- einval;;
            mret ret);;
  check_step_result (case_id info) ret;;
  ret <- (if is_num_type info "s" then
            let buf := valuebuf in
            ret <- set_gpio_value (case_id info)
                (base_pin info + gpio_pin1 info) buf 4;;
            mret ret
          else
            ret <- einval;;
            mret ret);;
  check_step_result (case_id info) ret;;
  ret <- (if is_num_type info "s" then
            ret <- deactivate_gpio_pin (case_id info)
                (base_pin info + gpio_pin1 info);;
            mret ret
          else
            ret <- einval;;
            mret ret);;
  check_step_result (case_id info) ret;;
  ret <- (if is_num_type info "s" then
            ret <- activate_gpio_pin (case_id info)
                (base_pin info + gpio_pin1 info);;
            mret ret
          else
            ret <- einval;;
            mret ret);;
  check_step_result (case_id info) ret;;
  ret <- (if is_num_type info "s" then
            let buf := directbuf2 in
            ret <- set_gpio_direction (case_id info)
                (base_pin info + gpio_pin1 info) buf 4;;
            mret ret
          else
            ret <- einval;;
            mret ret);;
  check_step_result (case_id info) ret;;
  ret <- (if is_num_type info "s" then
            '(ret, buf) <- get_gpio_value (case_id info)
                (base_pin info + gpio_pin1 info) 4;;
            mret ret
          else
            ret <- einval;;
            mret ret);;
  print_test_result (case_id info) ret;;
  ret <- (if is_num_type info "s" then
            ret <- deactivate_gpio_pin (case_id info)
                (base_pin info + gpio_pin1 info);;
            mret ret
          else
            ret <- einval;;
            mret ret);;
  mret ret.

Definition ARA_411_falling_to_rising (info : gpio_app_info) : M Z :=
  let ret := 0 in
  let directbuf := "out" in
  let valuebuf := "1" in
  let edgebuf1 := "falling" in
  let edgebuf2 := "rising" in
  ret <- (if is_num_type info "s" then
            ret <- activate_gpio_pin (case_id info)
                (base_pin info + gpio_pin1 info);;
            mret ret
          else
            ret <- einval;;
            mret ret);;
  check_step_result (case_id info) ret;;
  ret <- (if is_num_type info "s" then
            let buf := directbuf in
            ret <- set_gpio_direction (case_id info)
                (base_pin info + gpio_pin1 info) buf 8;;
            mret ret
          else
            ret <- einval;;
            mret ret);;
  check_step_result (case_id info) ret;;
  ret <- (if is_num_type info "s" then
            let buf := valuebuf in
            ret <- set_gpio_value (case_id info)
                (base_pin info + gpio_pin1 info) buf 8;;
            mret ret
          else
            ret <- einval;;
            mret ret);;
  check_step_result (case_id info) ret;;
  ret <- (if is_num_type info "s" then
            let buf := edgebuf1 in
            ret <- set_gpio_edge (case_id info)
                (base_pin info + gpio_pin1 info) buf 8;;
            mret ret
          else
            ret <- einval;;
            mret ret);;
  check_step_result (case_id info) ret;;
  ret <- (if is_num_type info "s" then
            '(ret, buf) <- get_gpio_edge (case_id info)
                (base_pin info + gpio_pin1 info) 8;;
            ret <- (if lnot ret then strcmpM buf edgebuf1 else mret ret);;
            mret ret
          else
            ret <- einval;;
            mret ret);;
  check_step_result (case_id info) ret;;
  ret <- (if is_num_type info "s" then
            let buf := edgebuf2 in
            ret <- set_gpio_edge (case_id info)
                (base_pin info + gpio_pin1 info) buf 8;;
            mret ret
          else
            ret <- einval;;
            mret ret);;
  check_step_result (case_id info) ret;;
  ret <- (if is_num_type info "s" then
            '(ret, buf) <- get_gpio_edge (case_id info)
                (base_pin info + gpio_pin1 info) 8;;
            ret <- (if lnot ret then strcmpM buf edgebuf2 else mret ret);;
            mret ret
          else
            ret <- einval;;
            mret ret);;
  print_test_result (case_id info) ret;;
  ret <- (if is_num_type info "s" then
            ret <- deactivate_gpio_pin (case_id info)
                (base_pin info + gpio_pin1 info);;
            mret ret
          else
            ret <- einval;;
            mret ret);;
  mret ret.

Definition ARA_412_rising_to_falling (info : gpio_app_info) : M Z :=
  let ret := 0 in
  let directbuf := "out" in
  let valuebuf := "1" in
  let edgebuf1 := "rising" in
  let edgebuf2 := "falling" in
  ret <- (if is_num_type info "s" then
            ret <- activate_gpio_pin (case_id info)
                (base_pin info + gpio_pin1 info);;
            mret ret
          else
            ret <- einval;;
            mret ret);;
  check_step_result (case_id info) ret;;
  ret <- (if is_num_type info "s" then
            let buf := directbuf in
            ret <- set_gpio_direction (case_id info)
                (base_pin info + gpio_pin1 info) buf 8;;
            mret ret
          else
            ret <- einval;;
            mret ret);;
  check_step_result (case_id info) ret;;
  ret <- (if is_num_type info "s" then
            let buf := valuebuf in
            ret <- set_gpio_value (case_id info)
                (base_pin info + gpio_pin1 info) buf 8;;
            mret ret
          else
            ret <- einval;;
            mret ret);;
  check_step_result (case_id info) ret;;
  ret <- (if is_num_type info "s" then
            let buf := edgebuf1 in
            ret <- set_gpio_edge (case_id info)
                (base_pin info + gpio_pin1 info) buf 8;;
            mret ret
          else
            ret <- einval;;
            mret ret);;
  check_step_result (case_id info) ret;;
  ret <- (if is_num_type info "s" then
            '(ret, buf) <- get_gpio_edge (case_id info)
                (base_pin info + gpio_pin1 info) 8;;
            ret <- (if lnot ret then strcmpM buf edgebuf1 else mret ret);;
            mret ret
          else
            ret <- einval;;
            mret ret);;
  check_step_result (case_id info) ret;;
  ret <- (if is_num_type info "s" then
            let buf := edgebuf2 in
            ret <- set_gpio_edge (case_id info)
                (base_pin info + gpio_pin1 info) buf 8;;
            mret ret
          else
            ret <- einval;;
            mret ret);;
  check_step_result (case_id info) ret;;
  ret <- (if is_num_type info "s" then
            '(ret, buf) <- get_gpio_edge (case_id info)
                (base_pin info + gpio_pin1 info) 8;;
            ret <- (if lnot ret then strcmpM buf edgebuf2 else mret ret);;
            mret ret
          else
            ret <- einval;;
            mret ret);;
  print_test_result (case_id info) ret;;
  ret <- (if is_num_type info "s" then
            ret <- deactivate_gpio_pin (case_id info)
                (base_pin info + gpio_pin1 info);;
            mret ret
          else
            ret <- einval;;
            mret ret);;
  mret ret.

Definition ARA_413_rising_to_both (info : gpio_app_info) : M Z :=
  let ret := 0 in
  let directbuf := "out" in
  let valuebuf := "1" in
  let edgebuf1 := "rising" in
  let edgebuf2 := "both" in
  ret <- (if is_num_type info "s" then
            ret <- activate_gpio_pin (case_id info)
                (base_pin info + gpio_pin1 info);;
            mret ret
          else
            ret <- einval;;
            mret ret);;
  check_step_result (case_id info) ret;;
  ret <- (if is_num_type info "s" then
            let buf := directbuf in
            ret <- set_gpio_direction (case_id info)
                (base_pin info + gpio_pin1 info) buf 8;;
            mret ret
          else
            ret <- einval;;
            mret ret);;
  check_step_result (case_id info) ret;;
  ret <- (if is_num_type info "s" then
            let buf := valuebuf in
            ret <- set_gpio_value (case_id info)
                (base_pin info + gpio_pin1 info) buf 8;;
            mret ret
          else
            ret <- einval;;
            mret ret);;
  check_step_result (case_id info) ret;;
  ret <- (if is_num_type info "s" then
            let buf := edgebuf1 in
            ret <- set_gpio_edge (case_id info)
                (base_pin info + gpio_pin1 info) buf 8;;
            mret ret
          else
            ret <- einval;;
            mret ret);;
  check_step_result (case_id info) ret;;
  ret <- (if is_num_type info "s" then
            '(ret, buf) <- get_gpio_edge (case_id info)
                (base_pin info + gpio_pin1 info) 8;;
            ret <- (if lnot ret then strcmpM buf edgebuf1 else mret ret);;
            mret ret
          else
            ret <- einval;;
            mret ret);;
  check_step_result (case_id info) ret;;
  ret <- (if is_num_type info "s" then
            let buf := edgebuf2 in
            ret <- set_gpio_edge (case_id info)
                (base_pin info + gpio_pin1 info) buf 8;;
            mret ret
          else
            ret <- einval;;
            mret ret);;
  check_step_result (case_id info) ret;;
  ret <- (if is_num_type info "s" then
            '(ret, buf) <- get_gpio_edge (case_id info)
                (base_pin info + gpio_pin1 info) 8;;
            ret <- (if lnot ret then strcmpM buf edgebuf2 else mret ret);;
            mret ret
          else
            ret <- einval;;
            mret ret);;
  print_test_result (case_id info) ret;;
  ret <- (if is_num_type info "s" then
            ret <- deactivate_gpio_pin (case_id info)
                (base_pin info + gpio_pin1 info);;
            mret ret
          else
            ret <- einval;;
            mret ret);;
  mret ret.

Definition ARA_416_none_to_both (info : gpio_app_info) : M Z :=
  let ret := 0 in
  let directbuf := "out" in
  let valuebuf := "1" in
  let edgebuf1 := "none" in
  let edgebuf2 := "both" in
  ret <- (if is_num_type info "s" then
            ret <- activate_gpio_pin (case_id info)
                (base_pin info + gpio_pin1 info);;
            mret ret
          else
            ret <- einval;;
            mret ret);;
  check_step_result (case_id info) ret;;
  ret <- (if is_num_type info "s" then
            let buf := directbuf in
            ret <- set_gpio_direction (case_id info)
                (base_pin info + gpio_pin1 info) buf 8;;
            mret ret
          else
            ret <- einval;;
            mret ret);;
  check_step_result (case_id info) ret;;
  ret <- (if is_num_type info "s" then
            let buf := valuebuf in
            ret <- set_gpio_value (case_id info)
                (base_pin info + gpio_pin1 info) buf 8;;
            mret ret
          else
            ret <- einval;;
            mret ret);;
  check_step_result (case_id info) ret;;
  ret <- (if is_num_type info "s" then
            let buf := edgebuf1 in
            ret <- set_gpio_edge (case_id info)
                (base_pin info + gpio_pin1 info) buf 8;;
            mret ret
          else
            ret <- einval;;
            mret ret);;
  check_step_result (case_id info) ret;;
  ret <- (if is_num_type info "s" then
            '(ret, buf) <- get_gpio_edge (case_id info)
                (base_pin info + gpio_pin1 info) 8;;
            ret <- (if lnot ret then strcmpM buf edgebuf1 else mret ret);;
            mret ret
          else
            ret <- einval;;
            mret ret);;
  check_step_result (case_id info) ret;;
  ret <- (if is_num_type info "s" then
            let buf := edgebuf2 in
            ret <- set_gpio_edge (case_id info)
                (base_pin info + gpio_pin1 info) buf 8;;
            mret ret
          else
            ret <- einval;;
            mret ret);;
  check_step_result (case_id info) ret;;
  ret <- (if is_num_type info "s" then
            '(ret, buf) <- get_gpio_edge (case_id info)
                (base_pin info + gpio_pin1 info) 8;;
            ret <- (if lnot ret then strcmpM buf edgebuf2 else mret ret);;
            mret ret
          else
            ret <- einval;;
            mret ret);;
  print_test_result (case_id info) ret;;
  ret <- (if is_num_type info "s" then
            ret <- deactivate_gpio_pin (case_id info)
                (base_pin info + gpio_pin1 info);;
            mret ret
          else
            ret <- einval;;
            mret ret);;
  mret ret.

Definition ARA_417_both_to_none (info : gpio_app_info) : M Z :=
  let ret := 0 in
  let directbuf := "out" in
  let valuebuf := "1" in
  let edgebuf1 := "both" in
  let edgebuf2 := "none" in
  ret <- (if is_num_type info "s" then
            ret <- activate_gpio_pin (case_id info)
                (base_pin info + gpio_pin1 info);;
            mret ret
          else
            ret <- einval;;
            mret ret);;
  check_step_result (case_id info) ret;;
  ret <- (if is_num_type info "s" then
            let buf := directbuf in
            ret <- set_gpio_direction (case_id info)
                (base_pin info + gpio_pin1 info) buf 8;;
            mret ret
          else
            ret <- einval;;
            mret ret);;
  check_step_result (case_id info) ret;;
  ret <- (if is_num_type info "s" then
            let buf := valuebuf in
            ret <- set_gpio_value (case_id info)
                (base_pin info + gpio_pin1 info) buf 8;;
            mret ret
          else
            ret <- einval;;
            mret ret);;
  check_step_result (case_id info) ret;;
  ret <- (if is_num_type info "s" then
            let buf := edgebuf1 in
            ret <- set_gpio_edge (case_id info)
                (base_pin info + gpio_pin1 info) buf 8;;
            mret ret
          else
            ret <- einval;;
            mret ret);;
  check_step_result (case_id info) ret;;
  ret <- (if is_num_type info "s" then
            '(ret, buf) <- get_gpio_edge (case_id info)
                (base_pin info + gpio_pin1 info) 8;;
            ret <- (if lnot ret then strcmpM buf edgebuf1 else mret ret);;
            mret ret
          else
            ret <- einval;;
            mret ret);;
  check_step_result (case_id info) ret;;
  ret <- (if is_num_type info "s" then
            let buf := edgebuf2 in
            ret <- set_gpio_edge (case_id info)
                (base_pin info + gpio_pin1 info) buf 8;;
            mret ret
          else
            ret <- einval;;
            mret ret);;
  check_step_result (case_id info) ret;;
  ret <- (if is_num_type info "s" then
            '(ret, buf) <- get_gpio_edge (case_id info)
                (base_pin info + gpio_pin1 info) 8;;
            ret <- (if lnot ret then strcmpM buf edgebuf2 else mret ret);;
            mret ret
          else
            ret <- einval;;
            mret ret);;
  print_test_result (case_id info) ret;;
  ret <- (if is_num_type info "s" then
            ret <- deactivate_gpio_pin (case_id info)
                (base_pin info + gpio_pin1 info);;
            mret ret
          else
            ret <- einval;;
            mret ret);;
  mret ret.

(** *** Dispatch *)

Definition switch_case_number (info : gpio_app_info) : M Z :=
  match case_id info with
  | 263 => ARA_263_get_count info
  | 264 => ARA_264_multiple_activate info
  | 267 => ARA_267_multiple_deactivate info
  | 270 => ARA_270_multiple_direction info
  | 271 => ARA_271_multiple_times_direction info
  | 272 => ARA_272_all_direction info
  | 273 => ARA_273_multiple_input info
  | 274 => ARA_274_multiple_times_input info
  | 276 => ARA_276_multiple_output info
  | 277 => ARA_277_multiple_times_output info
  | 279 => ARA_279_get_value info
  | 281 => ARA_281_set_value_high info
  | 282 => ARA_282_set_value_low info
  | 286 => ARA_286_set_edge_rising info
  | 287 => ARA_287_set_edge_falling info
  | 288 => ARA_288_set_edge_both info
  | 409 => ARA_409_input_to_output info
  | 410 => ARA_410_output_to_input info
  | 411 => ARA_411_falling_to_rising info
  | 412 => ARA_412_rising_to_falling info
  | 413 => ARA_413_rising_to_both info
  | 416 => ARA_416_none_to_both info
  | 417 => ARA_417_both_to_none info
  | _ =>
      print_log 0 "Error: The command had error case_id.";;
      mret (- EINVAL)
  end.

(** *** The command line and [main] *)

(** [default_params]. *)
Definition default_params : gpio_app_info := mk_info 0 0 0 0 0 0 "".

(** [command_parse], over what [getopt] hands out: the option letters
    with their arguments, in order, ["?"] standing for an option
    [getopt] refuses.  An argument of [-t] longer than one character
    overruns [num_type] in the source and is outside the model, as is a
    number [atoi] cannot return; what is said below of the structure
    [command_parse] leaves is said of the command lines within these
    bounds. *)
Fixpoint command_parse (info : gpio_app_info) (opts : list (ascii * string))
  : M (Z * gpio_app_info) :=
  match opts with
  | [] => mret (0, info)
  | (option, optarg) :: rest =>
      if Ascii.eqb option "c" then
        command_parse (set_case_id info (uint16 (atoi optarg))) rest
      else if Ascii.eqb option "C" then
        command_parse (set_case_id info (uint16 (atoi optarg))) rest
      else if Ascii.eqb option "t" then
        command_parse (set_num_type info optarg) rest
      else if Ascii.eqb option "T" then
        command_parse (set_num_type info optarg) rest
      else if Ascii.eqb option "1" then
        command_parse (set_gpio_pin1 info (uint16 (atoi optarg))) rest
      else if Ascii.eqb option "2" then
        command_parse (set_gpio_pin2 info (uint16 (atoi optarg))) rest
      else if Ascii.eqb option "3" then
        command_parse (set_gpio_pin3 info (uint16 (atoi optarg))) rest
      else
        (print_usage;; mret (- EINVAL, info))
  end.

(** [main]: the value returned is the exit status of the process. *)
Definition main (argc : Z) (opts : list (ascii * string)) : M Z :=
  let ret := 0 in
  ret <- (if argc <? 3 then
            print_usage;;
            mret (- EINVAL)
          else mret ret);;
  let info := default_params in
  '(ret, info) <- (if lnot ret then
                     '(r, info) <- command_parse info opts;;
                     if lnot r then mret (ret, info)
                     else mret (- EINVAL, info)
                   else mret (ret, info));;
  (* 1. Check Greybus GPIO controller *)
  '(ret, info) <- (if lnot ret then
                     '(ret, base, count) <- check_greybus_gpio;;
                     let info := set_base_pin info (uint16 base) in
                     let info := set_max_count info (uint16 count) in
                     check_step_result (case_id info) ret;;
                     mret (ret, info)
                   else mret (ret, info));;
  (* 2. Switch test case *)
  ret <- (if lnot ret then
            ret <- switch_case_number info;;
            check_step_result (case_id info) ret;;
            mret ret
          else mret ret);;
  mret ret.

(** The test cases by number, as [switch_case_number] selects them. *)
Definition scenario_table : list (Z * (gpio_app_info -> M Z)) :=
  [ (263, ARA_263_get_count);
    (264, ARA_264_multiple_activate);
    (267, ARA_267_multiple_deactivate);
    (270, ARA_270_multiple_direction);
    (271, ARA_271_multiple_times_direction);
    (272, ARA_272_all_direction);
    (273, ARA_273_multiple_input);
    (274, ARA_274_multiple_times_input);
    (276, ARA_276_multiple_output);
    (277, ARA_277_multiple_times_output);
    (279, ARA_279_get_value);
    (281, ARA_281_set_value_high);
    (282, ARA_282_set_value_low);
    (286, ARA_286_set_edge_rising);
    (287, ARA_287_set_edge_falling);
    (288, ARA_288_set_edge_both);
    (409, ARA_409_input_to_output);
    (410, ARA_410_output_to_input);
    (411, ARA_411_falling_to_rising);
    (412, ARA_412_rising_to_falling);
    (413, ARA_413_rising_to_both);
    (416, ARA_416_none_to_both);
    (417, ARA_417_both_to_none) ].

(** The body of a loop that makes the call [mk i] in pass [i] and keeps
    the code it returns. *)
Definition calls_as (mk : Z -> call) (body : Z -> Z -> M Z) : Prop :=
  forall i ret w,
    body i ret w =
    let '(r, buf, w') := cap_call cap (mk i) w in
    (r, w', [EvCall (mk i) r buf]).

End Driver.

Arguments M W A : clear implicits.

(** The value, the trace and the calls of a run. *)
Definition value {W A} (r : A * W * list event) : A := fst (fst r).
Definition trace {W A} (r : A * W * list event) : list event := snd r.

(** The case identifiers [switch_case_number] knows. *)
Definition recognized : list Z :=
  [263; 264; 267; 270; 271; 272; 273; 274; 276; 277; 279; 281; 282; 286;
   287; 288; 409; 410; 411; 412; 413; 416; 417].

(** ** Addressing modes *)

Inductive mode := Single | Multiple | All.

(** The literal a test case compares [num_type] with for a mode. *)
Definition mode_tag (m : mode) : string :=
  match m with
  | Single => "s"
  | Multiple => "m"
  | All => "a"
  end.

(** The modes a test case has a branch for; [ARA_263_get_count] never
    looks at [num_type]. *)
Definition branches (cid : Z) : list mode :=
  match cid with
  | 263 => []
  | 264 | 267 | 270 | 273 | 276 | 279 => [Multiple; Single]
  | 272 => [All; Multiple; Single]
  | _ => [Single]
  end.

(** [num_type] selects none of the modes the test case has a branch for. *)
Definition unserved (cid : Z) (info : gpio_app_info) : Prop :=
  forall m, In m (branches cid) -> is_num_type info (mode_tag m) = false.

(** ** Capability layers to run the driver on *)

(** A scripted controller: the state is the list of replies still to
    give, one per call; once the script is used up every call returns 0
    and an empty buffer.  Discovery reports base 0 and [count] lines. *)
Definition scripted (count : Z) : capability (list (Z * string)) :=
  {| cap_call := fun _ w =>
       match w with
       | [] => (0, "", [])
       | (ret, buf) :: w' => (ret, buf, w')
       end;
     cap_check_greybus_gpio := fun w => (0, 0, count, w) |}.

(** A controller that honours writes: it keeps the last token written to
    each attribute of each line and hands it back on a get; every call
    returns 0. *)
Record lines_state := mk_lines {
  directions : list (Z * string);
  values : list (Z * string);
  edges : list (Z * string)
}.

Fixpoint lookup (pin : Z) (l : list (Z * string)) (d : string) : string :=
  match l with
  | [] => d
  | (p, v) :: l' => if p =? pin then v else lookup pin l' d
  end.

Definition honest : capability lines_state :=
  {| cap_call := fun c w =>
       match c with
       | Get_greybus_gpio_count _ _ => (0, "16", w)
       | Get_gpio_direction _ pin _ => (0, lookup pin (directions w) "in", w)
       | Get_gpio_value _ pin _ => (0, lookup pin (values w) "0", w)
       | Get_gpio_edge _ pin _ => (0, lookup pin (edges w) "none", w)
       | Set_gpio_direction _ pin buf _ =>
           (0, buf, mk_lines ((pin, buf) :: directions w) (values w) (edges w))
       | Set_gpio_value _ pin buf _ =>
           (0, buf, mk_lines (directions w) ((pin, buf) :: values w) (edges w))
       | Set_gpio_edge _ pin buf _ =>
           (0, buf, mk_lines (directions w) (values w) ((pin, buf) :: edges w))
       | _ => (0, "", w)
       end;
     cap_check_greybus_gpio := fun w => (0, 0, 16, w) |}.

Definition fresh_lines : lines_state := mk_lines [] [] [].

(** ** What every run of a test case satisfies *)

Record well_behaved (cid : Z) (info : gpio_app_info) {W : Type}
  (r : Z * W * list event) : Prop := {
  wb_report :
    reported (trace r) = [last_result 0 (before_report (trace r))];
  wb_value : value r = last_result 0 (trace r);
  wb_sound : verification_sound (trace r);
  wb_recovery :
    forall l, In l (activated (calls (trace r))) <->
              In l (lines (recovery (calls (trace r))));
  wb_single :
    is_num_type info "s" = true ->
    Forall (eq (pin1 info)) (lines (calls (trace r)));
  wb_single_ne :
    is_num_type info "s" = true -> cid <> 263 ->
    lines (calls (trace r)) <> [];
  wb_multiple :
    is_num_type info "m" = true ->
    triples (pin1 info) (pin2 info) (pin3 info) (lines (calls (trace r)));
  wb_multiple_ne :
    is_num_type info "m" = true -> In Multiple (branches cid) ->
    lines (calls (trace r)) <> [];
  wb_unserved :
    unserved cid info -> cid <> 263 ->
    calls (trace r) = [] /\ value r = - EINVAL /\
    step_results (trace r) <> [] /\
    Forall (eq (- EINVAL)) (step_results (trace r))
}.

(** ** Inputs of the examples *)

(** Case 416 on line 3: the read after ["none"] was written finds
    ["rising"], the one after ["both"] was written finds ["both"]. *)
Definition info_416 : gpio_app_info := mk_info 416 0 16 3 0 0 "s".

Definition script_416 : list (Z * string) :=
  [(0, ""); (0, "out"); (0, "1"); (0, "none"); (0, "rising");
   (0, "both"); (0, "both"); (0, "")].

(** [gpiotest -c 270 -t s -1 3]. *)
Definition argv_270 : list (ascii * string) :=
  [("c"%char, "270"); ("t"%char, "s"); ("1"%char, "3")].

(** The activate call succeeds, the read of the direction fails with
    -EIO, the deactivate call succeeds. *)
Definition script_read_fails : list (Z * string) :=
  [(0, ""); (-5, ""); (0, "")].

(** Activate and read succeed, the deactivate call fails with -EIO. *)
Definition script_deactivate_fails : list (Z * string) :=
  [(0, ""); (0, "in"); (-5, "")].

(** [gpiotest -c 272 -t a], [-c 263 -t x], [-c 999 -t s], [-c 271 -t m]. *)
Definition argv_272 : list (ascii * string) :=
  [("c"%char, "272"); ("t"%char, "a")].

Definition argv_263 : list (ascii * string) :=
  [("c"%char, "263"); ("t"%char, "x")].



Definition info_272 : gpio_app_info := mk_info 272 0 0 0 0 0 "a".
Definition info_272_three : gpio_app_info := mk_info 272 8 3 0 0 0 "A".
Definition info_263 : gpio_app_info := mk_info 263 0 0 0 0 0 "x".
Definition info_999 : gpio_app_info := mk_info 999 0 16 0 0 0 "s".
Definition info_271 : gpio_app_info := mk_info 271 0 16 0 0 0 "m".
Definition info_273 : gpio_app_info := mk_info 273 0 16 1 1 4 "M".
Definition info_274 : gpio_app_info := mk_info 274 0 16 2 0 0 "s".

(** Case 273 under [M] with two equal offsets; the second read fails and
    the third finds ["out"], and the deactivate call fails. *)
Definition script_273_fails : list (Z * string) :=
  [(0, ""); (0, "in"); (0, "in"); (0, "in");
   (0, "in"); (-5, ""); (0, "out"); (-5, "")].

(** ** Further observations on runs *)

(** The case identifier a call is handed; the line-count query is handed
    none. *)
Definition call_cid (c : call) : option Z :=
  match c with
  | Get_greybus_gpio_count _ _ => None
  | Activate_gpio_pin cid _ => Some cid
  | Activate_gpio_multiple_pin cid _ _ _ => Some cid
  | Deactivate_gpio_pin cid _ => Some cid
  | Deactivate_gpio_multiple_pin cid _ _ _ => Some cid
  | Get_gpio_direction cid _ _ => Some cid
  | Set_gpio_direction cid _ _ _ => Some cid
  | Get_gpio_value cid _ _ => Some cid
  | Set_gpio_value cid _ _ _ => Some cid
  | Get_gpio_edge cid _ _ => Some cid
  | Set_gpio_edge cid _ _ _ => Some cid
  end.

(** The event names the case [cid], where it names a case at all. *)
Definition carries (cid : Z) (e : event) : Prop :=
  match e with
  | EvCall c _ _ =>
      match call_cid c with
      | Some k => k = cid
      | None => True
      end
  | EvCheckStep k _ | EvTestResult k _ | EvLog k _ => k = cid
  | _ => True
  end.

(** The last call of a trace and the code it returned. *)
Fixpoint last_call (t : list event) : option (call * Z) :=
  match t with
  | [] => None
  | e :: t' =>
      match last_call t' with
      | Some r => Some r
      | None =>
          match e with
          | EvCall c ret _ => Some (c, ret)
          | _ => None
          end
      end
  end.

(** How many times a test case calls [check_step_result] or
    [print_test_result]. *)
Definition steps (cid : Z) : nat :=
  match cid with
  | 263 | 264 => 1%nat
  | 267 | 270 | 271 | 272 => 2%nat
  | 273 | 274 | 276 | 277 | 279 => 3%nat
  | 281 | 282 | 286 | 287 | 288 => 5%nat
  | 409 => 8%nat
  | _ => 7%nat
  end.

(** The literal of the [strcmp] in the step a test case reports; the
    test cases left out report the code of a call. *)
Definition expected_final (cid : Z) : option string :=
  match cid with
  | 273 | 274 => Some "in"
  | 276 | 277 => Some "out"
  | 281 | 409 => Some "1"
  | 282 => Some "0"
  | 286 | 411 => Some "rising"
  | 287 | 412 => Some "falling"
  | 288 | 413 | 416 => Some "both"
  | 417 => Some "none"
  | _ => None
  end.

(** Every get or set call addresses a line that an activate call named
    and no deactivate call has named since; [active] is the lines so
    named before [cs]. *)
Fixpoint uses_active (active : list Z) (cs : list call) : Prop :=
  match cs with
  | [] => True
  | c :: cs' =>
      if is_activate c then uses_active (targets c ++ active) cs'
      else if is_deactivate c then
        uses_active
          (filter (fun l => negb (existsb (Z.eqb l) (targets c))) active)
          cs'
      else (forall l, In l (targets c) -> In l active) /\
           uses_active active cs'
  end.

(** The attributes of a line. *)
Inductive attribute := Direction | Value | Edge.

Definition attribute_eqb (a b : attribute) : bool :=
  match a, b with
  | Direction, Direction | Value, Value | Edge, Edge => true
  | _, _ => false
  end.

(** What a set call writes where, and what a get call reads. *)
Definition set_of (c : call) : option (attribute * Z * string) :=
  match c with
  | Set_gpio_direction _ pin buf _ => Some (Direction, pin, buf)
  | Set_gpio_value _ pin buf _ => Some (Value, pin, buf)
  | Set_gpio_edge _ pin buf _ => Some (Edge, pin, buf)
  | _ => None
  end.

Definition get_of (c : call) : option (attribute * Z) :=
  match c with
  | Get_gpio_direction _ pin _ => Some (Direction, pin)
  | Get_gpio_value _ pin _ => Some (Value, pin)
  | Get_gpio_edge _ pin _ => Some (Edge, pin)
  | _ => None
  end.

(** The last set call of the attribute [a] on the line [l] wrote [tok];
    [hist] holds the calls made so far, the latest first. *)
Fixpoint last_written (a : attribute) (l : Z) (tok : string)
  (hist : list call) : Prop :=
  match hist with
  | [] => False
  | c :: h =>
      match set_of c with
      | Some (a', l', tok') =>
          if attribute_eqb a a'
          then (l' = l /\ tok' = tok) \/ (l' <> l /\ last_written a l tok h)
          else last_written a l tok h
      | None => last_written a l tok h
      end
  end.

(** Every [strcmp] of the trace comes directly after a get call,
    compares the buffer that call filled, and compares it with the token
    the test case last wrote to that attribute of that line; [hist]
    holds the calls made so far, the latest first. *)
Fixpoint compares_written (hist : list call) (t : list event) : Prop :=
  match t with
  | [] => True
  | e :: t' =>
      match e with
      | EvCall c _ buf =>
          match t' with
          | EvStrcmp buf' lit _ :: t'' =>
              match get_of c with
              | Some (a, l) => buf' = buf /\ last_written a l lit hist
              | None => False
              end /\ compares_written (c :: hist) t''
          | _ => compares_written (c :: hist) t'
          end
      | EvStrcmp _ _ _ => False
      | _ => compares_written hist t'
      end
  end.

(** The C string a [string] holds: what comes before the first NUL. *)
Fixpoint c_str (s : string) : string :=
  match s with
  | EmptyString => EmptyString
  | String c t => if uchar c =? 0 then EmptyString else String c (c_str t)
  end.

(** The option letters [command_parse] has a case for. *)
Definition accepted (option : ascii) : bool :=
  Ascii.eqb option "c" || Ascii.eqb option "C" || Ascii.eqb option "t" ||
  Ascii.eqb option "T" || Ascii.eqb option "1" || Ascii.eqb option "2" ||
  Ascii.eqb option "3".

(** The six numbers of the structure fit [uint16_t]. *)
Definition in_uint16 (info : gpio_app_info) : Prop :=
  0 <= case_id info < 65536 /\ 0 <= base_pin info < 65536 /\
  0 <= max_count info < 65536 /\ 0 <= gpio_pin1 info < 65536 /\
  0 <= gpio_pin2 info < 65536 /\ 0 <= gpio_pin3 info < 65536.

(** More of what every run of a test case satisfies. *)
Record orderly (cid : Z) (info : gpio_app_info) {W : Type}
  (r : Z * W * list event) : Prop := {
  od_carries : Forall (carries (case_id info)) (trace r);
  od_steps : List.length (step_results (trace r)) = steps cid;
  od_last_call :
    cid <> 263 ->
    forall c ret, last_call (trace r) = Some (c, ret) ->
                  is_deactivate c = true /\ value r = ret;
  od_verdict :
    forall lit, expected_final cid = Some lit ->
      (reported (trace r) = [0] <->
       exists buf, last_get (before_report (trace r)) = Some (0, buf) /\
                   strcmp buf lit = 0);
  od_plain :
    expected_final cid = None ->
    forall c ret, last_call (before_report (trace r)) = Some (c, ret) ->
                  reported (trace r) = [ret];
  od_lines :
    Forall (fun l => In l [pin1 info; pin2 info; pin3 info] \/
                     In l (line_range (base_pin info) (max_count info)))
           (lines (calls (trace r)));
  od_active : uses_active [] (calls (trace r));
  od_written : compares_written [] (trace r)
}.

(** What the case of [command_parse] for the letter [option] stores in
    the structure, given the argument [optarg]; a letter without a case
    stores nothing. *)
Definition store (info : gpio_app_info) (option : ascii) (optarg : string)
  : gpio_app_info :=
  if Ascii.eqb option "c" then set_case_id info (uint16 (atoi optarg))
  else if Ascii.eqb option "C" then set_case_id info (uint16 (atoi optarg))
  else if Ascii.eqb option "t" then set_num_type info optarg
  else if Ascii.eqb option "T" then set_num_type info optarg
  else if Ascii.eqb option "1" then set_gpio_pin1 info (uint16 (atoi optarg))
  else if Ascii.eqb option "2" then set_gpio_pin2 info (uint16 (atoi optarg))
  else if Ascii.eqb option "3" then set_gpio_pin3 info (uint16 (atoi optarg))
  else info.

(** The structure after the options [opts], taken in order. *)
Definition stored (info : gpio_app_info) (opts : list (ascii * string))
  : gpio_app_info :=
  fold_left (fun i oa => store i (fst oa) (snd oa)) opts info.

(** The structure [main] hands to [switch_case_number]: the options
    stored over the defaults, then what discovery reported. *)
Definition context_of (opts : list (ascii * string)) (base count : Z)
  : gpio_app_info :=
  set_max_count
    (set_base_pin (stored default_params opts) (uint16 base))
    (uint16 count).

(** [INT_MIN] and [INT_MAX] of [limits.h], for an [int] of 32 bits. *)
Definition INT_MIN : Z := - 2 ^ 31.
Definition INT_MAX : Z := 2 ^ 31 - 1.

(** An option the source handles within what C defines.  For [-t],
    [snprintf] writes [strlen(optarg) + 1] bytes into [char
    num_type[2]], so the argument holds one character at most.  For a
    numeric option, [atoi] returns the number only when an [int] holds
    it.  Beyond these bounds the source writes past the structure or
    leaves the result of [atoi] open, and [command_parse] above, which
    keeps the whole argument and the whole number, no longer follows
    it.  A letter without a case has its argument ignored. *)
Definition in_bounds (oa : ascii * string) : bool :=
  let '(option, optarg) := oa in
  if Ascii.eqb (tolower option) "t" then
    Z.of_nat (strlen (c_str optarg)) + 1 <=? 2
  else if accepted option then
    (INT_MIN <=? atoi optarg) && (atoi optarg <=? INT_MAX)
  else true.

(** The options [command_parse] gets to: those up to the first one it
    has no case for, that one included. *)
Fixpoint reached (opts : list (ascii * string)) : list (ascii * string) :=
  match opts with
  | [] => []
  | oa :: rest => if accepted (fst oa) then oa :: reached rest else [oa]
  end.

(** The command line stays within the bounds of C as far as
    [command_parse] reads it. *)
Definition defined_on (opts : list (ascii * string)) : Prop :=
  forallb in_bounds (reached opts) = true.

(** The argument of the last option of [opts] with the letter [l], in
    either case. *)
Fixpoint last_arg (l : ascii) (opts : list (ascii * string))
  : option string :=
  match opts with
  | [] => None
  | (option, optarg) :: rest =>
      match last_arg l rest with
      | Some a => Some a
      | None => if Ascii.eqb (tolower option) l then Some optarg else None
      end
  end.

(** The number in a field after [opts]: that of the last option for the
    field, cut to [uint16_t]; [old], what the field held, when no option
    names it. *)
Definition number_after (l : ascii) (old : Z) (opts : list (ascii * string))
  : Z :=
  match last_arg l opts with
  | Some a => uint16 (atoi a)
  | None => old
  end.

(** ** More inputs of the examples *)

(** Case 281 on line 3: every call before the last read fails with -EIO,
    the last read finds ["1"]. *)
Definition info_281 : gpio_app_info := mk_info 281 0 16 3 0 0 "s".

Definition script_281 : list (Z * string) :=
  [(-5, ""); (-5, ""); (-5, ""); (-5, ""); (0, "1"); (0, "")].

Definition info_270 : gpio_app_info := mk_info 270 0 16 1 2 3 "m".
Definition info_271_s : gpio_app_info := mk_info 271 0 16 2 0 0 "s".
Definition info_409 : gpio_app_info := mk_info 409 0 16 5 0 0 "S".

(** The reads of the first two lines fail, the read of the third
    succeeds. *)
Definition script_270 : list (Z * string) :=
  [(0, ""); (-5, ""); (-5, ""); (0, "in"); (0, "")].

(** [gpiotest -c 300 -1 70000 -c 416 -1 65539 -T s]. *)
Definition argv_long : list (ascii * string) :=
  [("c"%char, "300"); ("1"%char, "70000"); ("c"%char, "416");
   ("1"%char, "65539"); ("T"%char, "s")].

(** [gpiotest -c 416 -x 1 -t multiple]: the letter [getopt] refuses comes
    before an argument of [-t] that [num_type] has no room for. *)
Definition argv_refused_early : list (ascii * string) :=
  [("c"%char, "416"); ("?"%char, ""); ("t"%char, "multiple")].

(** A controller whose discovery fails with -ENODEV. *)
Definition absent : capability unit :=
  {| cap_call := fun _ w => (-19, "", w);
     cap_check_greybus_gpio := fun w => (-19, 0, 0, w) |}.

(** [num_type] selects a mode the test case has a branch for; the
    line-count query runs under any. *)
Definition served (cid : Z) (info : gpio_app_info) : Prop :=
  cid = 263 \/
  exists m, In m (branches cid) /\ is_num_type info (mode_tag m) = true.

(** * Properties *)

Arguments is_num_type : simpl never.
Arguments strcmp : simpl never.
Arguments atoi : simpl never.
Arguments utoa : simpl never.

(** ** The mode test *)

Lemma is_num_type_head info lit :
  is_num_type info lit = true ->
  uchar (tolower (head (num_type info))) = uchar (tolower (head lit)).
Proof.
  unfold is_num_type, lnot. rewrite Nat.add_1_r. cbn [strncasecmp].
  destruct (Z.eqb_spec (uchar (tolower (head (num_type info))))
                       (uchar (tolower (head lit)))) as [E|N]; [auto|].
  intros H. apply Z.eqb_eq in H. lia.
Qed.

(** Two literals that differ in their first letter are never both
    selected. *)
Lemma tag_clash info l1 l2 :
  is_num_type info l1 = true -> is_num_type info l2 = true ->
  uchar (tolower (head l1)) <> uchar (tolower (head l2)) -> False.
Proof.
  intros H1 H2 N. apply is_num_type_head in H1, H2. congruence.
Qed.

(** The comparison looks at the mode letter through [tolower]. *)
Lemma tolower_idem c : tolower (tolower c) = tolower c.
Proof. destruct c as [[] [] [] [] [] [] [] []]; reflexivity. Qed.

Lemma is_num_type_case info c lit :
  is_num_type (set_num_type info (String (tolower c) "")) lit =
  is_num_type (set_num_type info (String c "")) lit.
Proof.
  unfold is_num_type. cbn [num_type set_num_type]. rewrite Nat.add_1_r.
  cbn [strncasecmp head tail]. rewrite tolower_idem. reflexivity.
Qed.

(** Closes a goal whose hypotheses select two modes at once. *)
Ltac clash :=
  match goal with
  | H1 : is_num_type ?i ?a = true, H2 : is_num_type ?i ?b = true |- _ =>
      exfalso; apply (tag_clash i a b H1 H2); vm_compute; discriminate
  | H1 : is_num_type ?i ?a = true, H2 : is_num_type ?i ?a = false |- _ =>
      congruence
  end.

(** Turns [unserved cid info] into what it says of each mode letter. *)
Ltac unserved_tags :=
  match goal with
  | H : unserved _ _ |- _ =>
      unfold unserved in H; cbn [branches In] in H;
      try (pose proof (H Single ltac:(auto)));
      try (pose proof (H Multiple ltac:(auto)));
      try (pose proof (H All ltac:(auto))); cbn [mode_tag] in *; clear H
  end.

(** ** Running a test case on an arbitrary capability layer *)

(** One step of a run: name what the next call returns, or split on
    whether the code it returned is 0. *)
Ltac step :=
  match goal with
  | |- context [cap_call ?cap ?c ?w] =>
      is_var w; let E := fresh "E" in
      destruct (cap_call cap c w) as [[? ?] ?] eqn:E; clear E
  | |- context [lnot ?r] =>
      is_var r; unfold lnot at 1; destruct (Z.eqb_spec r 0); [subst r|]
  end.

(** Runs a test case whose mode tests are decided, up to its trace. *)
Ltac run :=
  cbv [bind activate_gpio_pin activate_gpio_multiple_pin deactivate_gpio_pin
       deactivate_gpio_multiple_pin set_gpio_direction set_gpio_value
       set_gpio_edge get_gpio_edge get_gpio_direction get_gpio_value
       get_greybus_gpio_count for_lt for_loop Z.to_nat Pos.to_nat
       Pos.iter_op Nat.add invoke check_step_result print_test_result
       print_log emit mret strcmpM einval];
  repeat (step; cbn [app]).

(** The fields of [well_behaved] on a trace that is known event by
    event. *)
Ltac finish :=
  split; cbn; intros; try clash; try (unserved_tags; clash);
  try solve [ reflexivity | congruence | tauto | discriminate
            | repeat constructor
            | intuition (try congruence; try discriminate)
            | repeat split; (discriminate || (repeat constructor)) ].

(** Each test case is well behaved on every capability layer; the
    all-lines case, whose loops depend on [max_count], comes further
    down. *)
Section Runs.

Context {W : Type} (cap : capability W).

Lemma wb_263 info w :
  well_behaved 263 info (ARA_263_get_count cap info w).
Proof.
  unfold ARA_263_get_count.
  all: run.
  all: finish.
Qed.

Lemma wb_264 info w :
  well_behaved 264 info (ARA_264_multiple_activate cap info w).
Proof.
  unfold ARA_264_multiple_activate.
  destruct (is_num_type info "m") eqn:Hm;
    [|destruct (is_num_type info "s") eqn:Hs].
  all: run.
  all: finish.
Qed.

Lemma wb_267 info w :
  well_behaved 267 info (ARA_267_multiple_deactivate cap info w).
Proof.
  unfold ARA_267_multiple_deactivate.
  destruct (is_num_type info "m") eqn:Hm;
    [|destruct (is_num_type info "s") eqn:Hs].
  all: run.
  all: finish.
Qed.

Lemma wb_270 info w :
  well_behaved 270 info (ARA_270_multiple_direction cap info w).
Proof.
  unfold ARA_270_multiple_direction.
  destruct (is_num_type info "m") eqn:Hm;
    [|destruct (is_num_type info "s") eqn:Hs].
  all: run.
  all: finish.
Qed.

Lemma wb_271 info w :
  well_behaved 271 info (ARA_271_multiple_times_direction cap info w).
Proof.
  unfold ARA_271_multiple_times_direction.
  destruct (is_num_type info "s") eqn:Hs.
  all: run.
  all: finish.
Qed.

Lemma wb_273 info w :
  well_behaved 273 info (ARA_273_multiple_input cap info w).
Proof.
  unfold ARA_273_multiple_input.
  destruct (is_num_type info "m") eqn:Hm;
    [|destruct (is_num_type info "s") eqn:Hs].
  all: run.
  all: finish.
Qed.

Lemma wb_274 info w :
  well_behaved 274 info (ARA_274_multiple_times_input cap info w).
Proof.
  unfold ARA_274_multiple_times_input.
  destruct (is_num_type info "s") eqn:Hs.
  all: run.
  all: finish.
Qed.

Lemma wb_276 info w :
  well_behaved 276 info (ARA_276_multiple_output cap info w).
Proof.
  unfold ARA_276_multiple_output.
  destruct (is_num_type info "m") eqn:Hm;
    [|destruct (is_num_type info "s") eqn:Hs].
  all: run.
  all: finish.
Qed.

Lemma wb_277 info w :
  well_behaved 277 info (ARA_277_multiple_times_output cap info w).
Proof.
  unfold ARA_277_multiple_times_output.
  destruct (is_num_type info "s") eqn:Hs.
  all: run.
  all: finish.
Qed.

Lemma wb_279 info w :
  well_behaved 279 info (ARA_279_get_value cap info w).
Proof.
  unfold ARA_279_get_value.
  destruct (is_num_type info "m") eqn:Hm;
    [|destruct (is_num_type info "s") eqn:Hs].
  all: run.
  all: finish.
Qed.

Lemma wb_281 info w :
  well_behaved 281 info (ARA_281_set_value_high cap info w).
Proof.
  unfold ARA_281_set_value_high.
  destruct (is_num_type info "s") eqn:Hs.
  all: run.
  all: finish.
Qed.

Lemma wb_282 info w :
  well_behaved 282 info (ARA_282_set_value_low cap info w).
Proof.
  unfold ARA_282_set_value_low.
  destruct (is_num_type info "s") eqn:Hs.
  all: run.
  all: finish.
Qed.

Lemma wb_286 info w :
  well_behaved 286 info (ARA_286_set_edge_rising cap info w).
Proof.
  unfold ARA_286_set_edge_rising.
  destruct (is_num_type info "s") eqn:Hs.
  all: run.
  all: finish.
Qed.

Lemma wb_287 info w :
  well_behaved 287 info (ARA_287_set_edge_falling cap info w).
Proof.
  unfold ARA_287_set_edge_falling.
  destruct (is_num_type info "s") eqn:Hs.
  all: run.
  all: finish.
Qed.

Lemma wb_288 info w :
  well_behaved 288 info (ARA_288_set_edge_both cap info w).
Proof.
  unfold ARA_288_set_edge_both.
  destruct (is_num_type info "s") eqn:Hs.
  all: run.
  all: finish.
Qed.

Lemma wb_409 info w :
  well_behaved 409 info (ARA_409_input_to_output cap info w).
Proof.
  unfold ARA_409_input_to_output.
  destruct (is_num_type info "s") eqn:Hs.
  all: run.
  all: finish.
Qed.

Lemma wb_410 info w :
  well_behaved 410 info (ARA_410_output_to_input cap info w).
Proof.
  unfold ARA_410_output_to_input.
  destruct (is_num_type info "s") eqn:Hs.
  all: run.
  all: finish.
Qed.

Lemma wb_411 info w :
  well_behaved 411 info (ARA_411_falling_to_rising cap info w).
Proof.
  unfold ARA_411_falling_to_rising.
  destruct (is_num_type info "s") eqn:Hs.
  all: run.
  all: finish.
Qed.

Lemma wb_412 info w :
  well_behaved 412 info (ARA_412_rising_to_falling cap info w).
Proof.
  unfold ARA_412_rising_to_falling.
  destruct (is_num_type info "s") eqn:Hs.
  all: run.
  all: finish.
Qed.

Lemma wb_413 info w :
  well_behaved 413 info (ARA_413_rising_to_both cap info w).
Proof.
  unfold ARA_413_rising_to_both.
  destruct (is_num_type info "s") eqn:Hs.
  all: run.
  all: finish.
Qed.

Lemma wb_416 info w :
  well_behaved 416 info (ARA_416_none_to_both cap info w).
Proof.
  unfold ARA_416_none_to_both.
  destruct (is_num_type info "s") eqn:Hs.
  all: run.
  all: finish.
Qed.

Lemma wb_417 info w :
  well_behaved 417 info (ARA_417_both_to_none cap info w).
Proof.
  unfold ARA_417_both_to_none.
  destruct (is_num_type info "s") eqn:Hs.
  all: run.
  all: finish.
Qed.

(** ** Loops of calls *)

Lemma for_loop_call_run mk body :
  calls_as cap mk body ->
  forall n i ret w,
    call_run mk (iota i n) (trace (for_loop n i body ret w)) /\
    value (for_loop n i body ret w) =
    last_result ret (trace (for_loop n i body ret w)).
Proof.
  intros Hb. induction n as [|n IH]; intros i ret w.
  - cbn. split; [constructor | reflexivity].
  - cbn [for_loop iota]. unfold bind. rewrite Hb.
    destruct (cap_call cap (mk i) w) as [[r buf] w1].
    specialize (IH (i + 1) r w1).
    destruct (for_loop n (i + 1) body r w1) as [[r' w2] t].
    cbn in *. destruct IH as [IH1 IH2]. split; [constructor|]; assumption.
Qed.

End Runs.

(** ** Traces made of calls *)

Lemma iota_seq i n :
  iota i n = map (fun k => i + Z.of_nat k) (seq 0 n).
Proof.
  revert i. induction n as [|n IH]; intros i; [reflexivity|].
  cbn [iota seq map]. rewrite IH, <- seq_shift, map_map. f_equal; [lia|].
  apply map_ext. intros k. lia.
Qed.

Lemma line_range_iota b n :
  map (Z.add b) (iota 0 (Z.to_nat n)) = line_range b n.
Proof.
  unfold line_range. rewrite iota_seq, map_map. apply map_ext. intros k. lia.
Qed.

Lemma call_run_calls mk js t : call_run mk js t -> calls t = map mk js.
Proof.
  induction 1 as [|i js r buf t _ IH]; [reflexivity|].
  cbn. unfold calls in IH. rewrite IH. reflexivity.
Qed.

Lemma call_run_reported mk js t : call_run mk js t -> reported t = [].
Proof. induction 1; [reflexivity | assumption]. Qed.

Lemma call_run_step_results mk js t :
  call_run mk js t -> step_results t = [].
Proof. induction 1; [reflexivity | assumption]. Qed.

Lemma call_run_before_report mk js t rest :
  call_run mk js t -> before_report (t ++ rest) = t ++ before_report rest.
Proof.
  induction 1 as [|i js r buf t _ IH]; [reflexivity|].
  cbn. rewrite IH. reflexivity.
Qed.

Lemma last_result_app t1 t2 r0 :
  last_result r0 (t1 ++ t2) = last_result (last_result r0 t1) t2.
Proof.
  revert r0. induction t1 as [|e t1 IH]; intros r0; [reflexivity|].
  cbn. apply IH.
Qed.

Lemma reported_app t1 t2 : reported (t1 ++ t2) = reported t1 ++ reported t2.
Proof. apply flat_map_app. Qed.

Lemma step_results_app t1 t2 :
  step_results (t1 ++ t2) = step_results t1 ++ step_results t2.
Proof. apply flat_map_app. Qed.

Lemma calls_app t1 t2 : calls (t1 ++ t2) = calls t1 ++ calls t2.
Proof. apply flat_map_app. Qed.

Lemma chain_call_run mk js t prev : call_run mk js t -> chain prev t.
Proof.
  intros H. revert prev. induction H as [|i js r buf t _ IH]; intros prev.
  - exact I.
  - cbn. split; [exact I | apply IH].
Qed.

(** A run of calls, then an event that is handed the value of [ret]. *)
Lemma chain_call_run_then (e_of : Z -> event) mk js t rest :
  (forall c r b, follows (EvCall c r b) (e_of r)) ->
  call_run mk js t ->
  forall prev r0,
    follows prev (e_of r0) ->
    chain (e_of (last_result r0 t)) rest ->
    chain prev (t ++ e_of (last_result r0 t) :: rest).
Proof.
  intros He H. induction H as [|i js r buf t _ IH]; intros prev r0 Hp Hr.
  - cbn in *. split; assumption.
  - cbn [app chain]. split; [exact I|].
    change (last_result r0 (EvCall (mk i) r buf :: t))
      with (last_result r t) in *.
    apply IH; [apply He | assumption].
Qed.

(** ** The deactivate calls at the end *)

Lemma recovery_app pre suf :
  (forall c, In c pre -> is_deactivate c = false) ->
  forallb is_deactivate suf = true ->
  recovery (pre ++ suf) = suf.
Proof.
  intros Hpre Hsuf. induction pre as [|c pre IH].
  - cbn. destruct suf as [|c suf]; [reflexivity|].
    cbn [recovery]. rewrite Hsuf. reflexivity.
  - cbn [app recovery forallb]. rewrite (Hpre c (or_introl eq_refl)). cbn.
    apply IH. intros c' Hc'. apply Hpre. right. assumption.
Qed.

Lemma recovery_suffix cs :
  exists pre, cs = pre ++ recovery cs /\
              forallb is_deactivate (recovery cs) = true.
Proof.
  induction cs as [|c cs IH].
  - exists []. split; reflexivity.
  - cbn [recovery]. destruct (forallb is_deactivate (c :: cs)) eqn:E.
    + exists []. split; [reflexivity | assumption].
    + destruct IH as [pre [E1 E2]]. exists (c :: pre). split; [|assumption].
      cbn. rewrite <- E1. reflexivity.
Qed.

Lemma filter_map_all {A B} (p : B -> bool) (f : A -> B) l :
  (forall a, p (f a) = true) -> filter p (map f l) = map f l.
Proof.
  intros H. induction l as [|a l IH]; [reflexivity|].
  cbn. rewrite H, IH. reflexivity.
Qed.

Lemma filter_map_none {A B} (p : B -> bool) (f : A -> B) l :
  (forall a, p (f a) = false) -> filter p (map f l) = [].
Proof.
  intros H. induction l as [|a l IH]; [reflexivity|].
  cbn. rewrite H, IH. reflexivity.
Qed.

Lemma lines_map (mk : Z -> call) (f : Z -> Z) js :
  (forall j, targets (mk j) = [f j]) -> lines (map mk js) = map f js.
Proof.
  intros H. induction js as [|j js IH]; [reflexivity|].
  cbn. rewrite H. cbn. unfold lines in IH. rewrite IH. reflexivity.
Qed.

(** ** The all-lines test case under [a] *)

Section AllLines.

Context {W : Type} (cap : capability W).

Ltac loop_body :=
  intros ? ? ?;
  cbv [bind activate_gpio_pin deactivate_gpio_pin get_gpio_direction
       invoke mret];
  destruct (cap_call cap _ _) as [[? ?] ?]; reflexivity.

Ltac loop mk :=
  match goal with
  | |- context [for_loop ?n ?i ?body ?r ?w] =>
      is_var w;
      let H := fresh "H" in
      pose proof (for_loop_call_run cap mk body ltac:(loop_body) n i r w)
        as H;
      destruct (for_loop n i body r w) as [[? ?] ?];
      cbn [trace value fst snd] in H; destruct H; subst
  end.

Lemma ARA_272_all_shape info w :
  is_num_type info "a" = true ->
  exists t1 t2 t3 w',
    ARA_272_all_direction cap info w =
    (last_result (last_result (last_result 0 t1) t2) t3, w',
     t1 ++ EvCheckStep (case_id info) (last_result 0 t1)
        :: t2 ++ EvTestResult (case_id info)
                   (last_result (last_result 0 t1) t2)
        :: t3) /\
    call_run (fun i => Activate_gpio_pin (case_id info) (base_pin info + i))
             (iota 0 (Z.to_nat (max_count info))) t1 /\
    call_run (fun i => Get_gpio_direction (case_id info)
                                          (base_pin info + i) 4)
             (iota 0 (Z.to_nat (max_count info))) t2 /\
    call_run (fun i => Deactivate_gpio_pin (case_id info)
                                           (base_pin info + i))
             (iota 0 (Z.to_nat (max_count info))) t3.
Proof.
  intros Ha. unfold ARA_272_all_direction. rewrite Ha. unfold for_lt.
  cbv [bind check_step_result print_test_result emit mret].
  loop (fun i => Activate_gpio_pin (case_id info) (base_pin info + i)).
  loop (fun i => Get_gpio_direction (case_id info) (base_pin info + i) 4).
  loop (fun i => Deactivate_gpio_pin (case_id info) (base_pin info + i)).
  rewrite ?app_nil_r. cbn [app].
  eexists _, _, _, _. split; [reflexivity|]. auto.
Qed.

Lemma wb_272_all info w :
  is_num_type info "a" = true ->
  well_behaved 272 info (ARA_272_all_direction cap info w).
Proof.
  intros Ha.
  destruct (ARA_272_all_shape info w Ha)
    as (t1 & t2 & t3 & w' & E & R1 & R2 & R3).
  rewrite E. clear E.
  assert (Ecalls :
    calls (t1 ++ EvCheckStep (case_id info) (last_result 0 t1)
              :: t2 ++ EvTestResult (case_id info)
                         (last_result (last_result 0 t1) t2) :: t3) =
    (calls t1 ++ calls t2) ++ calls t3).
  { rewrite calls_app. cbn [calls flat_map app].
    fold (calls (t2 ++ EvTestResult (case_id info)
                        (last_result (last_result 0 t1) t2) :: t3)).
    rewrite calls_app. cbn [calls flat_map app]. fold (calls t3).
    rewrite app_assoc. reflexivity. }
  split; cbn [trace value fst snd]; intros; try clash;
    try (unserved_tags; clash).
  - rewrite reported_app, (call_run_reported _ _ _ R1). cbn.
    fold (reported (t2 ++ EvTestResult (case_id info)
                          (last_result (last_result 0 t1) t2) :: t3)).
    rewrite reported_app, (call_run_reported _ _ _ R2). cbn.
    fold (reported t3). rewrite (call_run_reported _ _ _ R3).
    rewrite (call_run_before_report _ _ _ _ R1). cbn [before_report].
    rewrite (call_run_before_report _ _ _ _ R2). cbn [before_report].
    rewrite app_nil_r, last_result_app. reflexivity.
  - rewrite last_result_app. cbn [last_result assigns].
    rewrite last_result_app. reflexivity.
  - unfold verification_sound.
    apply (chain_call_run_then (EvCheckStep (case_id info)) _ _ _ _
             ltac:(cbn; auto) R1); [exact I|].
    apply (chain_call_run_then (EvTestResult (case_id info)) _ _ _ _
             ltac:(cbn; auto) R2); [exact I|].
    eapply chain_call_run; eassumption.
  - rewrite Ecalls, (call_run_calls _ _ _ R1), (call_run_calls _ _ _ R2),
      (call_run_calls _ _ _ R3).
    rewrite recovery_app.
    + unfold activated. rewrite !filter_app.
      rewrite (filter_map_all is_activate), (filter_map_none is_activate),
        (filter_map_none is_activate) by reflexivity.
      rewrite !app_nil_r.
      rewrite (lines_map _ (Z.add (base_pin info))),
        (lines_map _ (Z.add (base_pin info))) by reflexivity.
      reflexivity.
    + intros c Hc. apply in_app_or in Hc.
      destruct Hc as [Hc|Hc]; apply in_map_iff in Hc;
        destruct Hc as [j [<- _]]; reflexivity.
    + apply forallb_forall. intros c Hc. apply in_map_iff in Hc.
      destruct Hc as [j [<- _]]; reflexivity.
Qed.

Lemma wb_272 info w :
  well_behaved 272 info (ARA_272_all_direction cap info w).
Proof.
  destruct (is_num_type info "a") eqn:Ha; [apply wb_272_all; assumption|].
  unfold ARA_272_all_direction. rewrite Ha.
  destruct (is_num_type info "m") eqn:Hm;
    [|destruct (is_num_type info "s") eqn:Hs].
  all: run.
  all: finish.
Qed.

End AllLines.

(** ** Dispatch *)

Create HintDb wb.
#[export] Hint Resolve wb_263 wb_264 wb_267 wb_270 wb_271 wb_272 wb_273
  wb_274 wb_276 wb_277 wb_279 wb_281 wb_282 wb_286 wb_287 wb_288 wb_409
  wb_410 wb_411 wb_412 wb_413 wb_416 wb_417 : wb.

(** Goes through the rows of [scenario_table]. *)
Ltac table H :=
  unfold scenario_table in H; cbn [In] in H;
  repeat (destruct H as [H|H]; [inversion H; subst; clear H|]);
  [..|contradiction].

Section Dispatch.

Context {W : Type} (cap : capability W).

Lemma all_well_behaved cid f info w :
  In (cid, f) (scenario_table cap) -> well_behaved cid info (f info w).
Proof. intros H. table H; auto with wb. Qed.

(** A test case returns what the last assignment to [ret] left there,
    the recovery included. *)
Lemma returned_value_is_last_assignment cid f info w :
  In (cid, f) (scenario_table cap) ->
  value (f info w) = last_result 0 (trace (f info w)).
Proof.
  intros H. apply (wb_value _ _ _ (all_well_behaved cid f info w H)).
Qed.

Lemma table_recognized cid f :
  In (cid, f) (scenario_table cap) -> In cid recognized.
Proof. intros H. table H; cbn; tauto. Qed.

Lemma recognized_table cid :
  In cid recognized -> exists f, In (cid, f) (scenario_table cap).
Proof.
  unfold recognized. cbn [In]. intros H.
  repeat (destruct H as [H|H];
          [subst; eexists; unfold scenario_table; cbn [In];
           repeat (first [left; reflexivity | right])|]).
  contradiction.
Qed.

Lemma switch_in_table cid f info :
  In (cid, f) (scenario_table cap) -> case_id info = cid ->
  switch_case_number cap info = f info.
Proof.
  intros H E. unfold switch_case_number. rewrite E.
  table H; reflexivity.
Qed.

Lemma switch_default info w :
  ~ In (case_id info) recognized ->
  switch_case_number cap info w =
  (- EINVAL, w, [EvLog 0 "Error: The command had error case_id."]).
Proof.
  unfold switch_case_number. intros H.
  assert (B : existsb (Z.eqb (case_id info)) recognized = false).
  { destruct (existsb (Z.eqb (case_id info)) recognized) eqn:E; [|reflexivity].
    exfalso. apply H. apply existsb_exists in E.
    destruct E as [c [Hc E]]. apply Z.eqb_eq in E. subst. assumption. }
  clear H.
  destruct (case_id info) as [|p|p]; try reflexivity.
  repeat (destruct p as [p|p|]; try reflexivity; try discriminate B).
Qed.

(** *** [main] *)


End Dispatch.

(** ** Adjacent events *)

Lemma last_default {A} (l : list A) (a d d' : A) :
  last (a :: l) d = last (a :: l) d'.
Proof.
  revert a. induction l as [|b l IH]; intros a; [reflexivity|].
  change (last (b :: l) d = last (b :: l) d'). apply IH.
Qed.

Lemma last_cons {A} (l : list A) (a d : A) : last (a :: l) d = last l a.
Proof.
  destruct l as [|b l]; [reflexivity|].
  change (last (b :: l) d = last (b :: l) a). apply last_default.
Qed.

Lemma chain_follows prev pre e post :
  chain prev (pre ++ e :: post) -> follows (last pre prev) e.
Proof.
  revert prev. induction pre as [|a pre IH]; intros prev H.
  - cbn in *. tauto.
  - rewrite last_cons. apply IH. cbn in H. tauto.
Qed.

(** ** The claims *)

Section Claims.

Context {W : Type} (cap : capability W).

Lemma table_416 f :
  In (416, f) (scenario_table cap) -> f = ARA_416_none_to_both cap.
Proof. intros H. table H; reflexivity. Qed.

Lemma none_to_both_last_wins info w buf r :
  let t := trace (ARA_416_none_to_both cap info w) in
  is_num_type info "s" = true ->
  In (EvStrcmp buf "none" r) t -> r <> 0 ->
  last_get (before_report t) = Some (0, "both") ->
  In r (step_results t) /\ reported t = [0].
Proof.
  intros t Hs. subst t. pattern (ARA_416_none_to_both cap info w).
  match goal with |- ?P _ => set (Q := P) end.
  unfold ARA_416_none_to_both. rewrite Hs. run.
  all: subst Q; cbn; intros HIn Hr Hg; inversion Hg; subst;
    try congruence.
  all: repeat (destruct HIn as [HIn|HIn]; try discriminate HIn);
    try contradiction.
  all: inversion HIn; subst; split; [tauto|reflexivity].
Qed.

(** C1. The value handed to [print_test_result] is the value the last
    step before it left in [ret], whatever the steps before gave: it is
    the only value reported, and it is the result of the last assignment
    to [ret] in the trace before the report.  In case 416, when the read
    after ["none"] does not find ["none"] and the last read succeeds and
    finds ["both"], the mismatch is handed to [check_step_result] and the
    reported result is 0. *)
Theorem reported_result_is_last_step cid f info w :
  In (cid, f) (scenario_table cap) ->
  let t := trace (f info w) in
  reported t = [last_result 0 (before_report t)] /\
  (cid = 416 -> is_num_type info "s" = true ->
   forall buf r,
     In (EvStrcmp buf "none" r) t -> r <> 0 ->
     last_get (before_report t) = Some (0, "both") ->
     In r (step_results t) /\ reported t = [0]).
Proof.
  intros H t. split.
  - apply (wb_report _ _ _ (all_well_behaved cap cid f info w H)).
  - intros -> Hs buf r. subst t. rewrite (table_416 f H).
    apply none_to_both_last_wins. assumption.
Qed.

(** C3, amended.  Under [a] the all-lines test case activates, reads the
    direction of and deactivates the lines [base_pin], ..., [base_pin +
    max_count - 1], each pass in ascending order; with [max_count = 0]
    it makes no call, reports 0 and returns 0. *)
Theorem all_direction_lines info w :
  is_num_type info "a" = true ->
  let r := ARA_272_all_direction cap info w in
  let ls := line_range (base_pin info) (max_count info) in
  calls (trace r) =
    map (Activate_gpio_pin (case_id info)) ls ++
    map (fun l => Get_gpio_direction (case_id info) l 4) ls ++
    map (Deactivate_gpio_pin (case_id info)) ls /\
  (max_count info = 0 ->
   calls (trace r) = [] /\ reported (trace r) = [0] /\ value r = 0).
Proof.
  intros Ha r ls. subst r ls.
  destruct (ARA_272_all_shape cap info w Ha)
    as (t1 & t2 & t3 & w' & E & R1 & R2 & R3).
  rewrite E. cbn [trace value fst snd]. split.
  - rewrite calls_app. cbn [calls flat_map app].
    fold (calls (t2 ++ EvTestResult (case_id info)
                        (last_result (last_result 0 t1) t2) :: t3)).
    rewrite calls_app. cbn [calls flat_map app]. fold (calls t3).
    rewrite (call_run_calls _ _ _ R1), (call_run_calls _ _ _ R2),
      (call_run_calls _ _ _ R3), <- line_range_iota, !map_map.
    reflexivity.
  - intros Hn. rewrite Hn in R1, R2, R3. cbn in R1, R2, R3.
    inversion R1; inversion R2; inversion R3; subst.
    cbn. auto.
Qed.

(** C4. For a case identifier [switch_case_number] does not know, the
    dispatch logs the error and returns -EINVAL; it makes no call and
    leaves the controller as it was. *)
Theorem unknown_case_rejected info w :
  ~ In (case_id info) recognized ->
  switch_case_number cap info w =
    (- EINVAL, w, [EvLog 0 "Error: The command had error case_id."]) /\
  calls (trace (switch_case_number cap info w)) = [].
Proof.
  intros H. rewrite (switch_default cap info w H). split; reflexivity.
Qed.

(** C5, amended.  For every test case but the line-count query 263, when
    [num_type] selects none of the modes the test case has a branch for,
    every step is refused with -EINVAL: no call is made, each
    [check_step_result] and [print_test_result] is handed -EINVAL, and
    the test case returns -EINVAL.  The line-count query never reads
    [num_type]: whatever it holds, the test case makes its one
    [get_greybus_gpio_count] call, reports the code the call returned
    and returns it. *)
Theorem unserved_mode_rejected cid f info w :
  In (cid, f) (scenario_table cap) ->
  (cid <> 263 -> unserved cid info ->
   calls (trace (f info w)) = [] /\
   value (f info w) = - EINVAL /\
   step_results (trace (f info w)) <> [] /\
   Forall (eq (- EINVAL)) (step_results (trace (f info w)))) /\
  (cid = 263 ->
   let c := Get_greybus_gpio_count (base_pin info) 4 in
   let ret := fst (fst (cap_call cap c w)) in
   calls (trace (f info w)) = [c] /\
   reported (trace (f info w)) = [ret] /\
   value (f info w) = ret).
Proof.
  intros H. split.
  - intros N U.
    apply (wb_unserved _ _ _ (all_well_behaved cap cid f info w H) U N).
  - intros ->. table H. cbv zeta. unfold ARA_263_get_count.
    cbv [bind get_greybus_gpio_count invoke print_log print_test_result
         emit mret].
    destruct (cap_call cap (Get_greybus_gpio_count (base_pin info) 4) w)
      as [[ret buf] w'].
    repeat split.
Qed.

Lemma table_case_insensitive cid f info w tag TAG :
  In (cid, f) (scenario_table cap) ->
  In (tag, TAG) [("s", "S"); ("m", "M"); ("a", "A")] ->
  f (set_num_type info TAG) w = f (set_num_type info tag) w.
Proof.
  intros H HT. cbn [In] in HT.
  destruct HT as [HT|[HT|[HT|[]]]]; inversion HT; subst; clear HT;
    table H; reflexivity.
Qed.

(** C6. In every test case, under [s] every line a call addresses is
    [base_pin + gpio_pin1]; under [m] the lines the calls address are
    [base_pin + gpio_pin1], [base_pin + gpio_pin2], [base_pin +
    gpio_pin3] over and over, in that order, equal offsets or not; and
    an upper-case mode letter runs the test case as the lower-case one
    does. *)
Theorem addressing_is_base_relative cid f info w :
  In (cid, f) (scenario_table cap) ->
  let ls := lines (calls (trace (f info w))) in
  (is_num_type info "s" = true ->
   Forall (eq (base_pin info + gpio_pin1 info)) ls /\
   (cid <> 263 -> ls <> [])) /\
  (is_num_type info "m" = true ->
   triples (base_pin info + gpio_pin1 info)
           (base_pin info + gpio_pin2 info)
           (base_pin info + gpio_pin3 info) ls /\
   (In Multiple (branches cid) -> ls <> [])) /\
  (forall tag TAG,
     In (tag, TAG) [("s", "S"); ("m", "M"); ("a", "A")] ->
     is_num_type (set_num_type info tag) tag = true /\
     is_num_type (set_num_type info TAG) tag = true /\
     f (set_num_type info TAG) w = f (set_num_type info tag) w).
Proof.
  intros H ls. subst ls.
  pose proof (all_well_behaved cap cid f info w H) as B.
  split; [|split].
  - intros Hs. split; [apply (wb_single _ _ _ B Hs)|].
    apply (wb_single_ne _ _ _ B Hs).
  - intros Hm. split; [apply (wb_multiple _ _ _ B Hm)|].
    apply (wb_multiple_ne _ _ _ B Hm).
  - intros tag TAG HT. split; [|split].
    + cbn [In] in HT.
      destruct HT as [HT|[HT|[HT|[]]]]; inversion HT; reflexivity.
    + cbn [In] in HT.
      destruct HT as [HT|[HT|[HT|[]]]]; inversion HT; reflexivity.
    + apply (table_case_insensitive cid); assumption.
Qed.

(** C7. Under [s], case 274 activates the line [base_pin + gpio_pin1],
    writes the direction ["in"] to it ten times, reads its direction
    once and deactivates it, and makes no other call; the result it
    reports is the comparison of what was read with ["in"] when the read
    succeeded, the code of the read when it failed. *)
Theorem repeated_input_calls info w :
  is_num_type info "s" = true ->
  let t := trace (ARA_274_multiple_times_input cap info w) in
  let cid := case_id info in
  let line := base_pin info + gpio_pin1 info in
  calls t =
    Activate_gpio_pin cid line ::
    repeat (Set_gpio_direction cid line "in" 4) 10 ++
    [Get_gpio_direction cid line 4; Deactivate_gpio_pin cid line] /\
  exists ret buf,
    In (EvCall (Get_gpio_direction cid line 4) ret buf) t /\
    reported t = [if lnot ret then strcmp buf "in" else ret].
Proof.
  intros Hs t cid line. subst t cid line.
  pattern (ARA_274_multiple_times_input cap info w).
  match goal with |- ?P _ => set (Q := P) end.
  unfold ARA_274_multiple_times_input. rewrite Hs. run.
  all: subst Q; cbn; split; [reflexivity|].
  all: eexists _, _; split; [tauto|].
  all: unfold lnot; try reflexivity.
  match goal with
  | N : ?z <> 0 |- _ =>
      destruct (Z.eqb_spec z 0); [contradiction|reflexivity]
  end.
Qed.

(** C8. The calls of a test case end with deactivate calls, and the
    lines these name are the lines its activate calls named, whatever
    the calls in between returned. *)
Theorem recovery_deactivates_activated cid f info w :
  In (cid, f) (scenario_table cap) ->
  let cs := calls (trace (f info w)) in
  (exists body, cs = body ++ recovery cs) /\
  forallb is_deactivate (recovery cs) = true /\
  (forall l, In l (activated cs) <-> In l (lines (recovery cs))).
Proof.
  intros H cs. subst cs.
  destruct (recovery_suffix (calls (trace (f info w)))) as [pre [E1 E2]].
  split; [exists pre; exact E1|]. split; [exact E2|].
  apply (wb_recovery _ _ _ (all_well_behaved cap cid f info w H)).
Qed.

(** C9. In the trace of every test case, a [strcmp] comes right after a
    get call that returned 0 and compares the buffer that call filled;
    after a get call that returned a code other than 0 there is no
    [strcmp], and a [check_step_result] or [print_test_result] that
    comes next is handed that code. *)
Theorem verification_guarded_by_get cid f info w :
  In (cid, f) (scenario_table cap) ->
  let t := trace (f info w) in
  (forall pre buf lit r post,
     t = pre ++ EvStrcmp buf lit r :: post ->
     exists pre' c,
       pre = pre' ++ [EvCall c 0 buf] /\ is_get c = true /\
       r = strcmp buf lit) /\
  (forall pre c ret buf e post,
     t = pre ++ EvCall c ret buf :: e :: post ->
     is_get c = true -> ret <> 0 ->
     match e with
     | EvStrcmp _ _ _ => False
     | EvCheckStep _ r | EvTestResult _ r => r = ret
     | _ => True
     end).
Proof.
  intros H t. subst t.
  pose proof (wb_sound _ _ _ (all_well_behaved cap cid f info w H)) as S.
  unfold verification_sound in S. split.
  - intros pre buf lit r post E. rewrite E in S.
    apply chain_follows in S. cbn in S.
    destruct pre as [|a pre] using rev_ind; [cbn in S; tauto|].
    rewrite last_last in S. destruct a; try tauto.
    destruct S as [(Hg & -> & ->) ->]. eauto.
  - intros pre c ret buf e post E Hg Hr. rewrite E in S.
    change (pre ++ EvCall c ret buf :: e :: post)
      with (pre ++ [EvCall c ret buf] ++ e :: post) in S.
    rewrite app_assoc in S. apply chain_follows in S.
    rewrite last_last in S. destruct e; cbn in S; tauto.
Qed.


End Claims.

(** ** The claims on concrete runs *)

(** Finds a row of [scenario_table]. *)
Ltac in_table :=
  unfold scenario_table; cbn [In]; repeat (first [left; reflexivity | right]).

(** A number that is none of the known case identifiers. *)
Ltac not_recognized :=
  let H := fresh in
  intros H; cbn in H; repeat (destruct H as [H|H]; [discriminate H|]);
  exact H.

Lemma reported_result_is_last_step_witness :
  let t := trace (ARA_416_none_to_both (scripted 16) info_416 script_416) in
  In (416, ARA_416_none_to_both (scripted 16)) (scenario_table (scripted 16)) /\
  In (EvStrcmp "rising" "none" 4) t /\
  In 4 (step_results t) /\ reported t = [0].
Proof.
  assert (H : In (416, ARA_416_none_to_both (scripted 16))
                 (scenario_table (scripted 16))) by in_table.
  assert (HIn : In (EvStrcmp "rising" "none" 4)
                  (trace (ARA_416_none_to_both (scripted 16) info_416
                            script_416))).
  { vm_compute. tauto. }
  split; [exact H|]. split; [exact HIn|].
  refine (proj2 (reported_result_is_last_step (scripted 16) 416 _ info_416
                   script_416 H) eq_refl eq_refl "rising" 4 HIn _ eq_refl).
  discriminate.
Defined.

(** C2, on the code.  [gpiotest -c 270 -t s -1 3]: when the read of the
    direction fails with -5 and the deactivate call succeeds,
    [print_test_result] is handed -5 and the exit status is 0; when the
    read succeeds and the deactivate call fails with -5,
    [print_test_result] is handed 0 and the exit status is -5.  The value
    returned is the one the recovery left in [ret]. *)
Theorem recovery_overwrites_result :
  (let r := main (scripted 16) 7 argv_270 script_read_fails in
   reported (trace r) = [-5] /\ value r = 0) /\
  (let r := main (scripted 16) 7 argv_270 script_deactivate_fails in
   reported (trace r) = [0] /\ value r = -5).
Proof. vm_compute. repeat split. Qed.

(** C3 as stated fails: [gpiotest -c 272 -t a] on a controller that
    reports no line makes no call, reports 0 and exits with 0, not with
    -EINVAL. *)
Lemma all_direction_no_lines_passes :
  let r := ARA_272_all_direction (scripted 0) info_272 [] in
  let m := main (scripted 0) 5 argv_272 [] in
  is_num_type info_272 "a" = true /\ max_count info_272 = 0 /\
  calls (trace r) = [] /\ reported (trace r) = [0] /\
  value r <> - EINVAL /\ value m <> - EINVAL /\ value m = 0.
Proof. vm_compute. repeat split; discriminate. Qed.

Lemma all_direction_lines_witness :
  is_num_type info_272_three "a" = true /\
  calls (trace (ARA_272_all_direction (scripted 3) info_272_three [])) =
  [Activate_gpio_pin 272 8; Activate_gpio_pin 272 9;
   Activate_gpio_pin 272 10;
   Get_gpio_direction 272 8 4; Get_gpio_direction 272 9 4;
   Get_gpio_direction 272 10 4;
   Deactivate_gpio_pin 272 8; Deactivate_gpio_pin 272 9;
   Deactivate_gpio_pin 272 10].
Proof.
  split; [reflexivity|].
  exact (proj1 (all_direction_lines (scripted 3) info_272_three []
                  eq_refl)).
Defined.

Lemma unknown_case_rejected_witness :
  ~ In (case_id info_999) recognized /\
  switch_case_number (scripted 16) info_999 [] =
    (-22, [], [EvLog 0 "Error: The command had error case_id."]) /\
  calls (trace (switch_case_number (scripted 16) info_999 [])) = [].
Proof.
  assert (H : ~ In (case_id info_999) recognized) by not_recognized.
  split; [exact H|].
  exact (unknown_case_rejected (scripted 16) info_999 [] H).
Defined.

(** C5 as stated fails: the line-count query has no branch on the mode;
    under [-t x], which selects no mode at all, it makes its call and
    returns what the call returned. *)
Lemma get_count_ignores_mode :
  let r := ARA_263_get_count (scripted 16) info_263 [(0, "16")] in
  let m := main (scripted 16) 5 argv_263 [(0, "16")] in
  unserved 263 info_263 /\
  (forall m, is_num_type info_263 (mode_tag m) = false) /\
  In (263, ARA_263_get_count (scripted 16)) (scenario_table (scripted 16)) /\
  calls (trace r) = [Get_greybus_gpio_count 0 4] /\
  value r = 0 /\ value r <> - EINVAL /\
  calls (trace m) = [Get_greybus_gpio_count 0 4] /\ value m = 0.
Proof.
  cbv zeta. split; [intros m []|]. split; [intros []; reflexivity|].
  split; [in_table|]. vm_compute. repeat split; discriminate.
Qed.

Lemma unserved_mode_rejected_witness :
  let r := ARA_271_multiple_times_direction (scripted 16) info_271 [] in
  let q := ARA_263_get_count (scripted 16) info_263 [(-5, "")] in
  unserved 271 info_271 /\
  calls (trace r) = [] /\ value r = -22 /\
  step_results (trace r) = [-22; -22] /\
  calls (trace q) = [Get_greybus_gpio_count 0 4] /\
  reported (trace q) = [-5] /\ value q = -5.
Proof.
  assert (H : In (271, ARA_271_multiple_times_direction (scripted 16))
                 (scenario_table (scripted 16))) by in_table.
  assert (G : In (263, ARA_263_get_count (scripted 16))
                 (scenario_table (scripted 16))) by in_table.
  assert (U : unserved 271 info_271).
  { intros m [<-|[]]. reflexivity. }
  assert (N : 271 <> 263) by discriminate.
  destruct (unserved_mode_rejected (scripted 16) 271 _ info_271 [] H)
    as [R _].
  destruct (R N U) as [C [V _]].
  destruct (unserved_mode_rejected (scripted 16) 263 _ info_263
              [(-5, "")] G) as [_ Q].
  cbv zeta. split; [exact U|]. split; [exact C|]. split; [exact V|].
  split; [reflexivity|]. exact (Q eq_refl).
Defined.

Lemma addressing_is_base_relative_witness :
  let ls := lines (calls (trace (ARA_273_multiple_input (scripted 16)
                                   info_273 []))) in
  is_num_type info_273 "m" = true /\
  triples 1 1 4 ls /\ ls <> [].
Proof.
  assert (H : In (273, ARA_273_multiple_input (scripted 16))
                 (scenario_table (scripted 16))) by in_table.
  pose proof (proj1 (proj2 (addressing_is_base_relative (scripted 16) 273 _
                              info_273 [] H)) eq_refl) as [T N].
  cbv zeta. split; [reflexivity|]. split; [exact T|].
  apply N. cbn. tauto.
Defined.

Lemma repeated_input_calls_witness :
  is_num_type info_274 "s" = true /\
  calls (trace (ARA_274_multiple_times_input (scripted 16) info_274 [])) =
  Activate_gpio_pin 274 2 :: repeat (Set_gpio_direction 274 2 "in" 4) 10 ++
  [Get_gpio_direction 274 2 4; Deactivate_gpio_pin 274 2].
Proof.
  split; [reflexivity|].
  exact (proj1 (repeated_input_calls (scripted 16) info_274 [] eq_refl)).
Defined.

Lemma recovery_deactivates_activated_witness :
  let cs := calls (trace (ARA_273_multiple_input (scripted 16) info_273
                            script_273_fails)) in
  In (273, ARA_273_multiple_input (scripted 16))
     (scenario_table (scripted 16)) /\
  forallb is_deactivate (recovery cs) = true /\
  (forall l, In l (activated cs) <-> In l (lines (recovery cs))).
Proof.
  assert (H : In (273, ARA_273_multiple_input (scripted 16))
                 (scenario_table (scripted 16))) by in_table.
  cbv zeta. split; [exact H|].
  exact (proj2 (recovery_deactivates_activated (scripted 16) 273 _ info_273
                  script_273_fails H)).
Defined.

Lemma verification_guarded_by_get_witness :
  let t := trace (ARA_273_multiple_input (scripted 16) info_273
                    script_273_fails) in
  In (273, ARA_273_multiple_input (scripted 16))
     (scenario_table (scripted 16)) /\
  forall pre buf lit r post,
    t = pre ++ EvStrcmp buf lit r :: post ->
    exists pre' c,
      pre = pre' ++ [EvCall c 0 buf] /\ is_get c = true /\
      r = strcmp buf lit.
Proof.
  assert (H : In (273, ARA_273_multiple_input (scripted 16))
                 (scenario_table (scripted 16))) by in_table.
  cbv zeta. split; [exact H|].
  exact (proj1 (verification_guarded_by_get (scripted 16) 273 _ info_273
                  script_273_fails H)).
Defined.


(** ** The model on a controller that honours writes *)

(** Every test case, run on one line, reports 0 and returns 0. *)
Example honest_controller_passes :
  forallb (fun cf =>
             let r := snd cf (mk_info (fst cf) 0 16 3 0 0 "s") fresh_lines in
             (value r =? 0) &&
             match reported (trace r) with
             | [0] => true
             | _ => false
             end)
          (scenario_table honest) = true.
Proof. vm_compute. reflexivity. Qed.

(** [gpiotest -c 273 -t M -1 1 -2 1 -3 4] passes too. *)
Example honest_controller_multiple :
  let r := main honest 11 [("c"%char, "273"); ("t"%char, "M");
                           ("1"%char, "1"); ("2"%char, "1");
                           ("3"%char, "4")] fresh_lines in
  value r = 0 /\ reported (trace r) = [0].
Proof. vm_compute. split; reflexivity. Qed.

(** * More of the driver *)

(** Chooses, from the latest set call back, the one that wrote to the
    line. *)
Ltac pick_line :=
  lazymatch goal with
  | |- (?a = ?b /\ _) \/ _ =>
      first
        [ left; split; reflexivity
        | let E := fresh "E" in
          destruct (Z.eq_dec a b) as [E|E];
          [left; split; [exact E | reflexivity]
          |right; split; [exact E | pick_line]] ]
  | |- _ => idtac
  end.

(** The fields of [orderly] on a trace that is known event by event. *)
Ltac settle :=
  split;
  [ cbn [trace snd]; repeat constructor
  | reflexivity
  | let N := fresh "N" in
    cbn; intros N ? ? E; try solve [exfalso; apply N; reflexivity];
    inversion E; subst; (split; reflexivity)
  | cbn; intros ? E; inversion E; subst; clear E;
    (split;
     [ let R := fresh "R" in
       intros R; try discriminate R; injection R as R; try congruence;
       (eexists; split; [reflexivity | exact R])
     | intros [? [G S]]; inversion G; subst; try congruence ])
  | cbn; intros E; try discriminate E;
    intros ? ? L; inversion L; subst; reflexivity
  | cbn [trace snd calls lines flat_map app targets];
    repeat (apply Forall_cons;
            [left; unfold pin1, pin2, pin3; cbn; tauto|]);
    apply Forall_nil
  | cbn; repeat split; intros; tauto
  | cbn; repeat split; pick_line ].

Section Orderly.

Context {W : Type} (cap : capability W).

Lemma od_263 info w :
  orderly 263 info (ARA_263_get_count cap info w).
Proof.
  unfold ARA_263_get_count.
  all: run.
  all: settle.
Qed.

Lemma od_264 info w :
  orderly 264 info (ARA_264_multiple_activate cap info w).
Proof.
  unfold ARA_264_multiple_activate.
  destruct (is_num_type info "m") eqn:Hm;
    [|destruct (is_num_type info "s") eqn:Hs].
  all: run.
  all: settle.
Qed.

Lemma od_267 info w :
  orderly 267 info (ARA_267_multiple_deactivate cap info w).
Proof.
  unfold ARA_267_multiple_deactivate.
  destruct (is_num_type info "m") eqn:Hm;
    [|destruct (is_num_type info "s") eqn:Hs].
  all: run.
  all: settle.
Qed.

Lemma od_270 info w :
  orderly 270 info (ARA_270_multiple_direction cap info w).
Proof.
  unfold ARA_270_multiple_direction.
  destruct (is_num_type info "m") eqn:Hm;
    [|destruct (is_num_type info "s") eqn:Hs].
  all: run.
  all: settle.
Qed.

Lemma od_271 info w :
  orderly 271 info (ARA_271_multiple_times_direction cap info w).
Proof.
  unfold ARA_271_multiple_times_direction.
  destruct (is_num_type info "s") eqn:Hs.
  all: run.
  all: settle.
Qed.

Lemma od_273 info w :
  orderly 273 info (ARA_273_multiple_input cap info w).
Proof.
  unfold ARA_273_multiple_input.
  destruct (is_num_type info "m") eqn:Hm;
    [|destruct (is_num_type info "s") eqn:Hs].
  all: run.
  all: settle.
Qed.

Lemma od_274 info w :
  orderly 274 info (ARA_274_multiple_times_input cap info w).
Proof.
  unfold ARA_274_multiple_times_input.
  destruct (is_num_type info "s") eqn:Hs.
  all: run.
  all: settle.
Qed.

Lemma od_276 info w :
  orderly 276 info (ARA_276_multiple_output cap info w).
Proof.
  unfold ARA_276_multiple_output.
  destruct (is_num_type info "m") eqn:Hm;
    [|destruct (is_num_type info "s") eqn:Hs].
  all: run.
  all: settle.
Qed.

Lemma od_277 info w :
  orderly 277 info (ARA_277_multiple_times_output cap info w).
Proof.
  unfold ARA_277_multiple_times_output.
  destruct (is_num_type info "s") eqn:Hs.
  all: run.
  all: settle.
Qed.

Lemma od_279 info w :
  orderly 279 info (ARA_279_get_value cap info w).
Proof.
  unfold ARA_279_get_value.
  destruct (is_num_type info "m") eqn:Hm;
    [|destruct (is_num_type info "s") eqn:Hs].
  all: run.
  all: settle.
Qed.

Lemma od_281 info w :
  orderly 281 info (ARA_281_set_value_high cap info w).
Proof.
  unfold ARA_281_set_value_high.
  destruct (is_num_type info "s") eqn:Hs.
  all: run.
  all: settle.
Qed.

Lemma od_282 info w :
  orderly 282 info (ARA_282_set_value_low cap info w).
Proof.
  unfold ARA_282_set_value_low.
  destruct (is_num_type info "s") eqn:Hs.
  all: run.
  all: settle.
Qed.

Lemma od_286 info w :
  orderly 286 info (ARA_286_set_edge_rising cap info w).
Proof.
  unfold ARA_286_set_edge_rising.
  destruct (is_num_type info "s") eqn:Hs.
  all: run.
  all: settle.
Qed.

Lemma od_287 info w :
  orderly 287 info (ARA_287_set_edge_falling cap info w).
Proof.
  unfold ARA_287_set_edge_falling.
  destruct (is_num_type info "s") eqn:Hs.
  all: run.
  all: settle.
Qed.

Lemma od_288 info w :
  orderly 288 info (ARA_288_set_edge_both cap info w).
Proof.
  unfold ARA_288_set_edge_both.
  destruct (is_num_type info "s") eqn:Hs.
  all: run.
  all: settle.
Qed.

Lemma od_409 info w :
  orderly 409 info (ARA_409_input_to_output cap info w).
Proof.
  unfold ARA_409_input_to_output.
  destruct (is_num_type info "s") eqn:Hs.
  all: run.
  all: settle.
Qed.

Lemma od_410 info w :
  orderly 410 info (ARA_410_output_to_input cap info w).
Proof.
  unfold ARA_410_output_to_input.
  destruct (is_num_type info "s") eqn:Hs.
  all: run.
  all: settle.
Qed.

Lemma od_411 info w :
  orderly 411 info (ARA_411_falling_to_rising cap info w).
Proof.
  unfold ARA_411_falling_to_rising.
  destruct (is_num_type info "s") eqn:Hs.
  all: run.
  all: settle.
Qed.

Lemma od_412 info w :
  orderly 412 info (ARA_412_rising_to_falling cap info w).
Proof.
  unfold ARA_412_rising_to_falling.
  destruct (is_num_type info "s") eqn:Hs.
  all: run.
  all: settle.
Qed.

Lemma od_413 info w :
  orderly 413 info (ARA_413_rising_to_both cap info w).
Proof.
  unfold ARA_413_rising_to_both.
  destruct (is_num_type info "s") eqn:Hs.
  all: run.
  all: settle.
Qed.

Lemma od_416 info w :
  orderly 416 info (ARA_416_none_to_both cap info w).
Proof.
  unfold ARA_416_none_to_both.
  destruct (is_num_type info "s") eqn:Hs.
  all: run.
  all: settle.
Qed.

Lemma od_417 info w :
  orderly 417 info (ARA_417_both_to_none cap info w).
Proof.
  unfold ARA_417_both_to_none.
  destruct (is_num_type info "s") eqn:Hs.
  all: run.
  all: settle.
Qed.

End Orderly.

(** ** Traces made of calls, continued *)

Lemma call_run_carries mk js t cid :
  (forall j, call_cid (mk j) = Some cid) ->
  call_run mk js t -> Forall (carries cid) t.
Proof.
  intros Hc. induction 1 as [|i js r buf t _ IH]; constructor.
  - cbn. rewrite Hc. reflexivity.
  - assumption.
Qed.

Lemma call_run_nil_iff mk js t : call_run mk js t -> (js = [] <-> t = []).
Proof. destruct 1; split; intros E; (reflexivity || discriminate E). Qed.

Lemma call_run_same_length mk1 mk2 js t1 t2 :
  call_run mk1 js t1 -> call_run mk2 js t2 -> t2 = [] -> t1 = [].
Proof.
  intros R1 R2 E. apply (call_run_nil_iff _ _ _ R1).
  apply (call_run_nil_iff _ _ _ R2). assumption.
Qed.

Lemma last_call_app t1 t2 :
  last_call (t1 ++ t2) =
  match last_call t2 with
  | Some r => Some r
  | None => last_call t1
  end.
Proof.
  induction t1 as [|e t1 IH]; cbn.
  - destruct (last_call t2); reflexivity.
  - rewrite IH. destruct (last_call t2); reflexivity.
Qed.

(** The last call of a run of calls is [mk j] for some [j], and its code
    is what the run leaves in [ret]; a run without a last call is
    empty. *)
Lemma call_run_last_call mk js t :
  call_run mk js t ->
  match last_call t with
  | Some (c, ret) =>
      (exists j, c = mk j) /\ forall r0, last_result r0 t = ret
  | None => t = []
  end.
Proof.
  induction 1 as [|i js r buf t _ IH]; [reflexivity|].
  cbn [last_call]. destruct (last_call t) as [[c ret]|].
  - destruct IH as [Hj Hr]. split; [assumption|].
    intros r0. cbn. apply Hr.
  - subst t. cbn. split; [eexists; reflexivity | reflexivity].
Qed.

Lemma compares_written_no_strcmp t :
  Forall (fun e => match e with EvStrcmp _ _ _ => False | _ => True end) t ->
  forall hist, compares_written hist t.
Proof.
  induction 1 as [|e t He Ht IH]; intros hist; [exact I|].
  destruct e; cbn [compares_written]; try apply IH; try contradiction.
  destruct Ht as [|e' t' He' Ht']; [exact I|].
  destruct e'; try contradiction; apply IH.
Qed.

Lemma call_run_no_strcmp mk js t :
  call_run mk js t ->
  Forall (fun e => match e with EvStrcmp _ _ _ => False | _ => True end) t.
Proof. induction 1; constructor; [exact I | assumption]. Qed.

(** ** Lines in use *)

Lemma uses_active_activate cid ls act rest :
  uses_active (rev ls ++ act) rest ->
  uses_active act (map (Activate_gpio_pin cid) ls ++ rest).
Proof.
  revert act. induction ls as [|l ls IH]; intros act H; [exact H|].
  cbn [map app uses_active is_activate targets]. apply IH.
  cbn [rev] in H. rewrite <- app_assoc in H. exact H.
Qed.

Lemma uses_active_get (mk : Z -> call) ls act rest :
  (forall l, is_activate (mk l) = false /\ is_deactivate (mk l) = false /\
             targets (mk l) = [l]) ->
  (forall l, In l ls -> In l act) ->
  uses_active act rest ->
  uses_active act (map mk ls ++ rest).
Proof.
  intros Hmk. induction ls as [|l ls IH]; intros Hin H; [exact H|].
  cbn [map app uses_active]. destruct (Hmk l) as (-> & -> & ->). split.
  - intros l' [<-|[]]. apply Hin. left. reflexivity.
  - apply IH; [|assumption]. intros l' Hl'. apply Hin. right. assumption.
Qed.

Lemma uses_active_deactivate cid ls act :
  uses_active act (map (Deactivate_gpio_pin cid) ls).
Proof.
  revert act. induction ls as [|l ls IH]; intros act; [exact I|].
  cbn [map uses_active is_activate is_deactivate]. apply IH.
Qed.

Section OrderlyAll.

Context {W : Type} (cap : capability W).

Lemma od_272_all info w :
  is_num_type info "a" = true ->
  orderly 272 info (ARA_272_all_direction cap info w).
Proof.
  intros Ha.
  destruct (ARA_272_all_shape cap info w Ha)
    as (t1 & t2 & t3 & w' & E & R1 & R2 & R3).
  rewrite E. clear E.
  set (r1 := last_result 0 t1). set (r2 := last_result r1 t2).
  assert (Ecalls :
    calls (t1 ++ EvCheckStep (case_id info) r1
              :: t2 ++ EvTestResult (case_id info) r2 :: t3) =
    map (Activate_gpio_pin (case_id info))
        (line_range (base_pin info) (max_count info)) ++
    map (fun l => Get_gpio_direction (case_id info) l 4)
        (line_range (base_pin info) (max_count info)) ++
    map (Deactivate_gpio_pin (case_id info))
        (line_range (base_pin info) (max_count info))).
  { rewrite calls_app. cbn [calls flat_map app].
    fold (calls (t2 ++ EvTestResult (case_id info) r2 :: t3)).
    rewrite calls_app. cbn [calls flat_map app]. fold (calls t3).
    rewrite (call_run_calls _ _ _ R1), (call_run_calls _ _ _ R2),
      (call_run_calls _ _ _ R3), <- line_range_iota, !map_map.
    reflexivity. }
  split; cbn [trace value fst snd].
  - apply Forall_app. split.
    + eapply call_run_carries; [|exact R1]; reflexivity.
    + constructor; [reflexivity|]. apply Forall_app. split.
      * eapply call_run_carries; [|exact R2]; reflexivity.
      * constructor; [reflexivity|].
        eapply call_run_carries; [|exact R3]; reflexivity.
  - rewrite step_results_app, (call_run_step_results _ _ _ R1). cbn.
    fold (step_results (t2 ++ EvTestResult (case_id info) r2 :: t3)).
    rewrite step_results_app, (call_run_step_results _ _ _ R2). cbn.
    fold (step_results t3). rewrite (call_run_step_results _ _ _ R3).
    reflexivity.
  - intros _ c ret. rewrite last_call_app. cbn [last_call].
    rewrite last_call_app. cbn [last_call].
    pose proof (call_run_last_call _ _ _ R3) as L3.
    destruct (last_call t3) as [[c3 ret3]|].
    + intros L. inversion L; subst. destruct L3 as [[j ->] Hr].
      split; [reflexivity | apply Hr].
    + subst t3.
      rewrite (call_run_same_length _ _ _ _ _ R2 R3 eq_refl).
      rewrite (call_run_same_length _ _ _ _ _ R1 R3 eq_refl).
      discriminate.
  - intros lit D. discriminate D.
  - intros _ c ret.
    rewrite (call_run_before_report _ _ _ _ R1). cbn [before_report].
    rewrite (call_run_before_report _ _ _ _ R2). cbn [before_report].
    rewrite app_nil_r, last_call_app. cbn [last_call].
    rewrite reported_app, (call_run_reported _ _ _ R1). cbn.
    fold (reported (t2 ++ EvTestResult (case_id info) r2 :: t3)).
    rewrite reported_app, (call_run_reported _ _ _ R2). cbn.
    fold (reported t3). rewrite (call_run_reported _ _ _ R3).
    pose proof (call_run_last_call _ _ _ R2) as L2.
    destruct (last_call t2) as [[c2 ret2]|].
    + intros L. inversion L; subst. destruct L2 as [_ Hr].
      unfold r2. rewrite Hr. reflexivity.
    + subst t2.
      rewrite (call_run_same_length _ _ _ _ _ R1 R2 eq_refl).
      discriminate.
  - rewrite Ecalls. unfold lines. rewrite !flat_map_app.
    fold (lines (map (Activate_gpio_pin (case_id info))
                     (line_range (base_pin info) (max_count info)))).
    fold (lines (map (fun l => Get_gpio_direction (case_id info) l 4)
                     (line_range (base_pin info) (max_count info)))).
    fold (lines (map (Deactivate_gpio_pin (case_id info))
                     (line_range (base_pin info) (max_count info)))).
    rewrite !(lines_map _ (fun l => l)) by reflexivity.
    rewrite map_id. apply Forall_forall. intros l Hl. right.
    apply in_app_or in Hl. destruct Hl as [Hl|Hl]; [assumption|].
    apply in_app_or in Hl. destruct Hl; assumption.
  - rewrite Ecalls. apply uses_active_activate. apply uses_active_get.
    + intros l. repeat split.
    + intros l Hl. apply in_or_app. left. rewrite <- in_rev. assumption.
    + apply uses_active_deactivate.
  - apply compares_written_no_strcmp. apply Forall_app. split.
    + apply (call_run_no_strcmp _ _ _ R1).
    + constructor; [exact I|]. apply Forall_app. split.
      * apply (call_run_no_strcmp _ _ _ R2).
      * constructor; [exact I|]. apply (call_run_no_strcmp _ _ _ R3).
Qed.

Lemma od_272 info w :
  orderly 272 info (ARA_272_all_direction cap info w).
Proof.
  destruct (is_num_type info "a") eqn:Ha; [apply od_272_all; assumption|].
  unfold ARA_272_all_direction. rewrite Ha.
  destruct (is_num_type info "m") eqn:Hm;
    [|destruct (is_num_type info "s") eqn:Hs].
  all: run.
  all: settle.
Qed.

End OrderlyAll.

Create HintDb od.
#[export] Hint Resolve od_263 od_264 od_267 od_270 od_271 od_272 od_273
  od_274 od_276 od_277 od_279 od_281 od_282 od_286 od_287 od_288 od_409
  od_410 od_411 od_412 od_413 od_416 od_417 : od.

Lemma all_orderly {W} (cap : capability W) cid f info w :
  In (cid, f) (scenario_table cap) -> orderly cid info (f info w).
Proof. intros H. table H; auto with od. Qed.

(** ** C strings *)

Lemma uchar_inj c1 c2 : uchar c1 = uchar c2 -> c1 = c2.
Proof.
  unfold uchar. intros H. apply N2Z.inj in H.
  rewrite <- (ascii_N_embedding c1), <- (ascii_N_embedding c2), H.
  reflexivity.
Qed.

Lemma uchar_nonneg c : 0 <= uchar c.
Proof. unfold uchar. apply N2Z.is_nonneg. Qed.

(** [strcmp] returns 0 exactly on two buffers that hold the same C
    string. *)
Lemma strcmp_zero a b : strcmp a b = 0 <-> c_str a = c_str b.
Proof.
  revert b. induction a as [|c1 t1 IH]; intros [|c2 t2].
  - split; reflexivity.
  - change (strcmp "" (String c2 t2)) with (0 - uchar c2).
    cbn [c_str]. destruct (Z.eqb_spec (uchar c2) 0) as [E|E].
    + split; [reflexivity | lia].
    + split; [lia | discriminate].
  - change (strcmp (String c1 t1) "") with (uchar c1).
    cbn [c_str]. destruct (Z.eqb_spec (uchar c1) 0) as [E|E].
    + split; [reflexivity | intros _; assumption].
    + split; [intros H; contradiction | discriminate].
  - change (strcmp (String c1 t1) (String c2 t2))
      with (if uchar c1 =? uchar c2
            then (if uchar c1 =? 0 then 0 else strcmp t1 t2)
            else uchar c1 - uchar c2).
    cbn [c_str].
    destruct (Z.eqb_spec (uchar c1) (uchar c2)) as [E|E].
    + rewrite <- E. apply uchar_inj in E. subst c2.
      destruct (Z.eqb_spec (uchar c1) 0) as [E0|E0].
      * split; reflexivity.
      * rewrite IH. split; [intros ->; reflexivity|].
        intros H. inversion H. reflexivity.
    + split; [lia|].
      destruct (Z.eqb_spec (uchar c1) 0) as [E1|E1];
        destruct (Z.eqb_spec (uchar c2) 0) as [E2|E2];
        intros H; try discriminate H; [congruence|].
      inversion H. subst. contradiction.
Qed.

(** ** The mode test, exactly *)

Lemma tolower_is c x :
  In x ["s"%char; "m"%char; "a"%char] ->
  tolower c = x -> c = x \/ c = ascii_of_N (N_of_ascii x - 32).
Proof.
  intros Hx H. cbn [In] in Hx.
  destruct c as [[] [] [] [] [] [] [] []];
    destruct Hx as [<-|[<-|[<-|[]]]]; vm_compute in H;
    first [discriminate H | left; reflexivity | right; reflexivity].
Qed.

Lemma tolower_zero c : uchar (tolower c) = 0 -> c = zero.
Proof.
  destruct c as [[] [] [] [] [] [] [] []]; vm_compute;
    first [discriminate | reflexivity].
Qed.

Lemma is_num_type_exact info (x : ascii) :
  In x ["s"%char; "m"%char; "a"%char] ->
  is_num_type info (String x "") = true <->
  c_str (num_type info) = String x "" \/
  c_str (num_type info) = String (ascii_of_N (N_of_ascii x - 32)) "".
Proof.
  intros Hx. unfold is_num_type, lnot.
  assert (Lx : tolower x = x /\ uchar x <> 0 /\
               uchar (ascii_of_N (N_of_ascii x - 32)) <> 0 /\
               tolower (ascii_of_N (N_of_ascii x - 32)) = x).
  { cbn [In] in Hx. destruct Hx as [<-|[<-|[<-|[]]]];
      vm_compute; repeat split; discriminate. }
  destruct Lx as (Lx & Nx & NX & LX).
  destruct (num_type info) as [|c t].
  - cbn [strlen String.length Nat.add strncasecmp head tail c_str].
    rewrite Lx. change (tolower zero) with zero.
    change (uchar zero) with 0.
    destruct (Z.eqb_spec 0 (uchar x)) as [E|E]; [congruence|].
    split; [intros H; apply Z.eqb_eq in H; lia|].
    intros [H|H]; discriminate H.
  - cbn [strlen String.length Nat.add strncasecmp head tail].
    rewrite Lx. cbn [c_str].
    destruct (Z.eqb_spec (uchar (tolower c)) (uchar x)) as [E|E].
    + apply uchar_inj in E.
      assert (Nc : uchar c <> 0).
      { destruct (tolower_is c x Hx E) as [->| ->]; assumption. }
      destruct (Z.eqb_spec (uchar c) 0) as [E0|_]; [contradiction|].
      rewrite E. destruct (Z.eqb_spec (uchar x) 0) as [E0|_];
        [contradiction|].
      destruct t as [|c' t'].
      * cbn [head c_str]. change (uchar (tolower zero)) with 0. cbn.
        split; [intros _|reflexivity].
        destruct (tolower_is c x Hx E) as [->| ->]; auto.
      * cbn [head tail c_str]. change (uchar (tolower zero)) with 0.
        destruct (Z.eqb_spec (uchar (tolower c')) 0) as [E1|E1].
        -- apply tolower_zero in E1. subst c'.
           change (uchar zero =? 0) with true. cbn.
           split; [intros _|reflexivity].
           destruct (tolower_is c x Hx E) as [->| ->]; auto.
        -- assert (N' : uchar c' <> 0).
           { intros Z0. apply E1. change 0 with (uchar zero) in Z0.
             apply uchar_inj in Z0. subst c'. reflexivity. }
           destruct (Z.eqb_spec (uchar c') 0) as [|_]; [contradiction|].
           split.
           ++ intros H. apply Z.eqb_eq in H. lia.
           ++ intros [H|H]; discriminate H.
    + split; [intros H; apply Z.eqb_eq in H; lia|].
      destruct (Z.eqb_spec (uchar c) 0) as [E0|E0];
        [intros [H|H]; discriminate H|].
      intros [H|H]; inversion H; subst; exfalso; apply E;
        rewrite ?Lx, ?LX; reflexivity.
Qed.

(** X1. The mode test holds exactly when [num_type] holds the letter, in
    either case, and nothing after it. *)
Theorem mode_test_exact info :
  (is_num_type info "s" = true <->
   c_str (num_type info) = "s" \/ c_str (num_type info) = "S") /\
  (is_num_type info "m" = true <->
   c_str (num_type info) = "m" \/ c_str (num_type info) = "M") /\
  (is_num_type info "a" = true <->
   c_str (num_type info) = "a" \/ c_str (num_type info) = "A").
Proof.
  split; [|split].
  - apply (is_num_type_exact info "s"). cbn. tauto.
  - apply (is_num_type_exact info "m"). cbn. tauto.
  - apply (is_num_type_exact info "a"). cbn. tauto.
Qed.

(** ** The command line *)

Section CommandLine.

Context {W : Type}.

(** One pass of the loop of [command_parse] on a letter it has a case
    for. *)
Lemma command_parse_accepted info o a rest (w : W) :
  accepted o = true ->
  command_parse info ((o, a) :: rest) w =
  command_parse (store info o a) rest w.
Proof.
  unfold accepted, store. intros H. cbn [command_parse].
  destruct (Ascii.eqb o "c"); [reflexivity|].
  destruct (Ascii.eqb o "C"); [reflexivity|].
  destruct (Ascii.eqb o "t"); [reflexivity|].
  destruct (Ascii.eqb o "T"); [reflexivity|].
  destruct (Ascii.eqb o "1"); [reflexivity|].
  destruct (Ascii.eqb o "2"); [reflexivity|].
  destruct (Ascii.eqb o "3"); [reflexivity | discriminate H].
Qed.

Lemma command_parse_refused info o a rest (w : W) :
  accepted o = false ->
  command_parse info ((o, a) :: rest) w = ((- EINVAL, info), w, [EvUsage]).
Proof.
  unfold accepted. intros H. cbn [command_parse].
  destruct (Ascii.eqb o "c"); [discriminate H|].
  destruct (Ascii.eqb o "C"); [discriminate H|].
  destruct (Ascii.eqb o "t"); [discriminate H|].
  destruct (Ascii.eqb o "T"); [discriminate H|].
  destruct (Ascii.eqb o "1"); [discriminate H|].
  destruct (Ascii.eqb o "2"); [discriminate H|].
  destruct (Ascii.eqb o "3"); [discriminate H|].
  reflexivity.
Qed.

Lemma store_in_uint16 info o a : in_uint16 info -> in_uint16 (store info o a).
Proof.
  unfold store.
  destruct (Ascii.eqb o "c"), (Ascii.eqb o "C"), (Ascii.eqb o "t"),
    (Ascii.eqb o "T"), (Ascii.eqb o "1"), (Ascii.eqb o "2"),
    (Ascii.eqb o "3");
    unfold in_uint16, uint16; cbn; intros B; repeat split;
    try apply Z.mod_pos_bound; lia.
Qed.

Lemma stored_in_uint16 opts info :
  in_uint16 info -> in_uint16 (stored info opts).
Proof.
  unfold stored. revert info. induction opts as [|[o a] opts IH];
    intros info B; [exact B|].
  cbn [fold_left fst snd]. apply IH, store_in_uint16, B.
Qed.

Lemma command_parse_all_accepted info opts (w : W) :
  forallb accepted (map fst opts) = true ->
  command_parse info opts w = ((0, stored info opts), w, []).
Proof.
  revert info. induction opts as [|[o a] opts IH]; intros info H.
  - reflexivity.
  - cbn [map fst forallb] in H. apply andb_prop in H. destruct H as [A H].
    rewrite (command_parse_accepted info o a opts w A).
    apply (IH _ H).
Qed.

Lemma command_parse_some_refused info opts (w : W) :
  forallb accepted (map fst opts) = false ->
  exists info',
    command_parse info opts w = ((- EINVAL, info'), w, [EvUsage]) /\
    (in_uint16 info -> in_uint16 info').
Proof.
  revert info. induction opts as [|[o a] opts IH]; intros info H.
  - discriminate H.
  - cbn [map fst forallb] in H. destruct (accepted o) eqn:A.
    + rewrite (command_parse_accepted info o a opts w A).
      destruct (IH (store info o a) H) as [i [E B]]. exists i.
      split; [exact E|]. intros Bi. apply B, store_in_uint16, Bi.
    + exists info. rewrite (command_parse_refused info o a opts w A).
      auto.
Qed.

Lemma stored_cons info o a opts :
  stored info ((o, a) :: opts) = stored (store info o a) opts.
Proof. reflexivity. Qed.

(** A field the case for the letter [l] writes holds, after the options,
    what the last option with that letter wrote. *)
Lemma stored_last_arg {A} (get : gpio_app_info -> A) (new : string -> A) l :
  (forall info o a,
     get (store info o a) =
     if Ascii.eqb (tolower o) l then new a else get info) ->
  forall opts info,
    get (stored info opts) =
    match last_arg l opts with
    | Some a => new a
    | None => get info
    end.
Proof.
  intros S. induction opts as [|[o a] opts IH]; intros info.
  - reflexivity.
  - rewrite stored_cons, IH. cbn [last_arg].
    destruct (last_arg l opts); [reflexivity|].
    rewrite S. destruct (Ascii.eqb (tolower o) l); reflexivity.
Qed.

(** A field no case writes is left as it was. *)
Lemma stored_untouched {A} (get : gpio_app_info -> A) :
  (forall info o a, get (store info o a) = get info) ->
  forall opts info, get (stored info opts) = get info.
Proof.
  intros S. induction opts as [|[o a] opts IH]; intros info.
  - reflexivity.
  - rewrite stored_cons, IH. apply S.
Qed.

(** What each case of [command_parse] writes, field by field. *)
Lemma store_fields info o a :
  case_id (store info o a) =
    (if Ascii.eqb (tolower o) "c" then uint16 (atoi a) else case_id info) /\
  gpio_pin1 (store info o a) =
    (if Ascii.eqb (tolower o) "1" then uint16 (atoi a)
     else gpio_pin1 info) /\
  gpio_pin2 (store info o a) =
    (if Ascii.eqb (tolower o) "2" then uint16 (atoi a)
     else gpio_pin2 info) /\
  gpio_pin3 (store info o a) =
    (if Ascii.eqb (tolower o) "3" then uint16 (atoi a)
     else gpio_pin3 info) /\
  num_type (store info o a) =
    (if Ascii.eqb (tolower o) "t" then a else num_type info) /\
  base_pin (store info o a) = base_pin info /\
  max_count (store info o a) = max_count info.
Proof.
  destruct o as [[] [] [] [] [] [] [] []]; repeat split; reflexivity.
Qed.

(** X2. Within the bounds of C, [command_parse] leaves the controller
    alone and fails exactly when some option letter is none of [c C t T
    1 2 3]: it then prints the usage and returns -EINVAL.  Otherwise it
    returns 0 and prints nothing, and for each field the last option
    that names it wins, in either case of its letter: [case_id] and the
    three offsets hold the number of their last option cut to
    [uint16_t], [num_type] holds the string of the last [-t], a field no
    option names keeps what it held, and [base_pin] and [max_count] are
    never written. *)
Theorem command_parse_outcome info opts (w : W) :
  defined_on opts ->
  let r := command_parse info opts w in
  let info' := snd (value r) in
  snd (fst r) = w /\
  (forallb accepted (map fst opts) = false ->
   fst (value r) = - EINVAL /\ trace r = [EvUsage]) /\
  (forallb accepted (map fst opts) = true ->
   fst (value r) = 0 /\ trace r = [] /\
   case_id info' = number_after "c" (case_id info) opts /\
   gpio_pin1 info' = number_after "1" (gpio_pin1 info) opts /\
   gpio_pin2 info' = number_after "2" (gpio_pin2 info) opts /\
   gpio_pin3 info' = number_after "3" (gpio_pin3 info) opts /\
   c_str (num_type info') =
     match last_arg "t" opts with
     | Some a => c_str a
     | None => c_str (num_type info)
     end /\
   base_pin info' = base_pin info /\ max_count info' = max_count info).
Proof.
  intros _. cbv zeta. destruct (forallb accepted (map fst opts)) eqn:A.
  - rewrite (command_parse_all_accepted info opts w A).
    cbn [value trace fst snd]. split; [reflexivity|].
    split; [discriminate|]. intros _. unfold number_after.
    split; [reflexivity|]. split; [reflexivity|].
    split; [apply (stored_last_arg case_id (fun a => uint16 (atoi a)));
            intros; apply store_fields|].
    split; [apply (stored_last_arg gpio_pin1 (fun a => uint16 (atoi a)));
            intros; apply store_fields|].
    split; [apply (stored_last_arg gpio_pin2 (fun a => uint16 (atoi a)));
            intros; apply store_fields|].
    split; [apply (stored_last_arg gpio_pin3 (fun a => uint16 (atoi a)));
            intros; apply store_fields|].
    split.
    { apply (stored_last_arg (fun i => c_str (num_type i)) c_str).
      intros i o a. cbn beta.
      destruct (store_fields i o a) as [_ [_ [_ [_ [T _]]]]]. rewrite T.
      destruct (Ascii.eqb (tolower o) "t"); reflexivity. }
    split; apply stored_untouched; intros; apply store_fields.
  - destruct (command_parse_some_refused info opts w A) as [i [E _]].
    rewrite E. cbn [value trace fst snd]. split; [reflexivity|].
    split; [intros _; split; reflexivity | discriminate].
Qed.

(** X3. The numbers [command_parse] stores fit [uint16_t]: a structure whose
    numbers are in range stays in range, whatever the arguments of the
    options. *)
Theorem command_parse_in_uint16 info opts (w : W) :
  in_uint16 info -> in_uint16 (snd (value (command_parse info opts w))).
Proof.
  intros B. destruct (forallb accepted (map fst opts)) eqn:A.
  - rewrite (command_parse_all_accepted info opts w A).
    apply stored_in_uint16, B.
  - destruct (command_parse_some_refused info opts w A) as [i [E Bi]].
    rewrite E. apply Bi, B.
Qed.

(** X4. Options are taken in order: parsing [o1 ++ o2] is parsing [o1] and,
    when that succeeds, parsing [o2] from the structure it leaves; after
    a refused option of [o1] nothing of [o2] is looked at. *)
Theorem command_parse_app info o1 o2 (w : W) :
  command_parse info (o1 ++ o2) w =
  match command_parse info o1 w with
  | ((code, info1), _, t1) =>
      if code =? 0 then command_parse info1 o2 w
      else ((code, info1), w, t1)
  end.
Proof.
  revert info. induction o1 as [|[o a] o1 IH]; intros info.
  - reflexivity.
  - cbn [app]. destruct (accepted o) eqn:A.
    + rewrite !(command_parse_accepted _ _ _ _ _ A). apply IH.
    + rewrite !(command_parse_refused _ _ _ _ _ A). reflexivity.
Qed.

Lemma tolower_letters o :
  accepted (tolower o) = accepted o /\
  forall info a, store info (tolower o) a = store info o a.
Proof.
  destruct o as [[] [] [] [] [] [] [] []]; split; reflexivity.
Qed.

(** X5. An option letter counts the same in upper and in lower case: [-C] is
    [-c] and [-T] is [-t], and a letter refused in one case is refused in
    the other. *)
Theorem command_parse_letter_case info opts (w : W) :
  command_parse info (map (fun oa => (tolower (fst oa), snd oa)) opts) w =
  command_parse info opts w.
Proof.
  revert info. induction opts as [|[o a] opts IH]; intros info.
  - reflexivity.
  - cbn [map fst snd]. destruct (tolower_letters o) as [A S].
    destruct (accepted o) eqn:Ao.
    + rewrite (command_parse_accepted _ _ _ _ _ Ao).
      rewrite (command_parse_accepted _ _ _ _ _ A).
      rewrite S. apply IH.
    + rewrite (command_parse_refused _ _ _ _ _ Ao).
      rewrite (command_parse_refused _ _ _ _ _ A).
      reflexivity.
Qed.

End CommandLine.

(** ** [main] *)

Lemma case_id_context_of opts base count :
  case_id (context_of opts base count) = case_id (stored default_params opts).
Proof. reflexivity. Qed.

Lemma context_of_in_uint16 opts base count :
  in_uint16 (context_of opts base count).
Proof.
  assert (B : in_uint16 (stored default_params opts)).
  { apply stored_in_uint16. unfold in_uint16. cbn. lia. }
  unfold in_uint16, context_of, uint16 in *. cbn.
  repeat split; try apply Z.mod_pos_bound; lia.
Qed.

Lemma In_line_range l b n :
  In l (line_range b n) -> b <= l < b + n.
Proof.
  unfold line_range. intros H. apply in_map_iff in H.
  destruct H as [k [<- Hk]]. apply in_seq in Hk. lia.
Qed.

Section MainRuns.

Context {W : Type} (cap : capability W).

(** [main] once the command line is accepted. *)
Lemma main_after_parse argc opts w :
  3 <= argc -> forallb accepted (map fst opts) = true ->
  main cap argc opts w =
  let '(ret, base, count, w1) := cap_check_greybus_gpio cap w in
  let info := context_of opts base count in
  if ret =? 0 then
    let '(r, w2, t) := switch_case_number cap info w1 in
    (r, w2,
     EvDiscover ret base count :: EvCheckStep (case_id info) ret
       :: t ++ [EvCheckStep (case_id info) r])
  else (ret, w1, [EvDiscover ret base count; EvCheckStep (case_id info) ret]).
Proof.
  intros Ha Hp. unfold main.
  destruct (Z.ltb_spec argc 3) as [L|_]; [lia|].
  cbv [bind mret lnot check_greybus_gpio check_step_result emit].
  cbn [Z.eqb]. rewrite (command_parse_all_accepted _ _ _ Hp). cbn [Z.eqb].
  destruct (cap_check_greybus_gpio cap w) as [[[ret base] count] w1].
  fold (context_of opts base count).
  destruct (Z.eqb_spec ret 0) as [->|N].
  - cbn. destruct (switch_case_number cap (context_of opts base count) w1)
      as [[r w2] t].
    cbn. rewrite app_nil_r. reflexivity.
  - cbn. destruct (ret =? 0) eqn:E; [apply Z.eqb_eq in E; contradiction|].
    reflexivity.
Qed.

Lemma main_usage argc opts w :
  argc < 3 \/ forallb accepted (map fst opts) = false ->
  main cap argc opts w = (- EINVAL, w, [EvUsage]).
Proof.
  intros H. unfold main.
  destruct (Z.ltb_spec argc 3) as [L|L]; [reflexivity|].
  destruct H as [H|H]; [lia|].
  destruct (command_parse_some_refused default_params opts w H)
    as [i [E _]].
  cbv [bind mret lnot]. cbn [Z.eqb]. rewrite E. reflexivity.
Qed.

(** X6. With fewer than three arguments, or with an option letter that has
    no case on a command line within the bounds of C up to that letter,
    [main] prints the usage and exits with -EINVAL: it asks the
    controller nothing and runs no test case. *)
Theorem main_early_exit argc opts w :
  argc < 3 \/
  (defined_on opts /\ forallb accepted (map fst opts) = false) ->
  main cap argc opts w = (- EINVAL, w, [EvUsage]) /\
  calls (trace (main cap argc opts w)) = [].
Proof.
  intros H.
  assert (U : argc < 3 \/ forallb accepted (map fst opts) = false).
  { destruct H as [H|[_ H]]; [left | right]; exact H. }
  rewrite (main_usage argc opts w U). split; reflexivity.
Qed.

(** X7. On a command line that is accepted and within the bounds of C,
    when [check_greybus_gpio] fails, [main] exits with its code after
    one [check_step_result]: no test case runs and no line is
    touched. *)
Theorem main_discovery_fails argc opts w ret base count w1 :
  3 <= argc -> forallb accepted (map fst opts) = true ->
  defined_on opts ->
  cap_check_greybus_gpio cap w = (ret, base, count, w1) -> ret <> 0 ->
  main cap argc opts w =
  (ret, w1,
   [EvDiscover ret base count;
    EvCheckStep (number_after "c" 0 opts) ret]).
Proof.
  intros Ha Hp _ Hd N.
  assert (E : case_id (context_of opts base count) =
              number_after "c" 0 opts).
  { rewrite case_id_context_of.
    apply (stored_last_arg case_id (fun a => uint16 (atoi a)) "c").
    intros. apply store_fields. }
  rewrite <- E, (main_after_parse argc opts w Ha Hp), Hd.
  destruct (Z.eqb_spec ret 0); [contradiction | reflexivity].
Qed.

(** X8. On a command line that is accepted and within the bounds of C,
    when discovery succeeds, [main] runs [switch_case_number] once, on
    the options stored over the defaults with the base and the count
    discovery reported cut to [uint16_t]; it exits with the value the
    dispatch returns, and brackets its trace with two
    [check_step_result]. *)
Theorem main_runs_selected_case argc opts w base count w1 :
  3 <= argc -> forallb accepted (map fst opts) = true ->
  defined_on opts ->
  cap_check_greybus_gpio cap w = (0, base, count, w1) ->
  let info := context_of opts base count in
  let r := switch_case_number cap info w1 in
  main cap argc opts w =
  (value r, snd (fst r),
   EvDiscover 0 base count :: EvCheckStep (case_id info) 0
     :: trace r ++ [EvCheckStep (case_id info) (value r)]).
Proof.
  intros Ha Hp _ Hd info r. subst info r.
  rewrite (main_after_parse argc opts w Ha Hp), Hd. cbn [Z.eqb].
  destruct (switch_case_number cap (context_of opts base count) w1)
    as [[r w2] t].
  reflexivity.
Qed.

Lemma lines_in_range cid f info w :
  In (cid, f) (scenario_table cap) -> in_uint16 info ->
  Forall (fun l => 0 <= l <= 131070) (lines (calls (trace (f info w)))).
Proof.
  intros H B.
  pose proof (od_lines _ _ _ (all_orderly cap cid f info w H)) as L.
  eapply Forall_impl; [|exact L]. cbn beta. intros l [Hl|Hl].
  - unfold in_uint16, pin1, pin2, pin3 in *. cbn [In] in Hl.
    destruct Hl as [<-|[<-|[<-|[]]]]; lia.
  - apply In_line_range in Hl. unfold in_uint16 in B. lia.
Qed.

(** X9. Whatever the command line and the controller, every line number
    [main] hands to the capability layer lies between 0 and 131070: the
    sums of two [uint16_t] the test cases compute never leave [int]. *)
Theorem main_lines_in_range argc opts w :
  Forall (fun l => 0 <= l <= 131070)
         (lines (calls (trace (main cap argc opts w)))).
Proof.
  destruct (Z.ltb_spec argc 3) as [L|L].
  { rewrite main_usage by (left; exact L). constructor. }
  destruct (forallb accepted (map fst opts)) eqn:A.
  2:{ rewrite main_usage by (right; exact A). constructor. }
  rewrite (main_after_parse argc opts w L A).
  destruct (cap_check_greybus_gpio cap w) as [[[ret base] count] w1].
  cbv zeta. destruct (ret =? 0); [|constructor].
  pose proof (context_of_in_uint16 opts base count) as B.
  destruct (in_dec Z.eq_dec (case_id (context_of opts base count))
                   recognized) as [K|K].
  - destruct (recognized_table cap _ K) as [f Hf].
    pose proof (lines_in_range _ f (context_of opts base count) w1 Hf B)
      as R.
    rewrite (switch_in_table cap _ f _ Hf eq_refl).
    destruct (f (context_of opts base count) w1) as [[r w2] t].
    cbn [trace snd calls flat_map app] in *.
    fold (calls (t ++ [EvCheckStep (case_id (context_of opts base count))
                                   r])).
    rewrite calls_app. cbn. rewrite app_nil_r. exact R.
  - rewrite (switch_default cap _ w1 K). constructor.
Qed.

End MainRuns.

(** ** More on the test cases *)

Section Cases.

Context {W : Type} (cap : capability W).

Lemma expected_final_c_str cid f lit :
  In (cid, f) (scenario_table cap) -> expected_final cid = Some lit ->
  c_str lit = lit.
Proof.
  intros H E. table H; cbn in E; inversion E; reflexivity.
Qed.

(** X10. In the test cases that end on a comparison, the reported result is 0
    exactly when the last read before the report returned 0 and left the
    expected token in the buffer; what the earlier calls returned does not
    count. *)
Theorem verdict_is_final_read cid f lit info w :
  In (cid, f) (scenario_table cap) -> expected_final cid = Some lit ->
  let t := trace (f info w) in
  reported t = [0] <->
  exists buf, last_get (before_report t) = Some (0, buf) /\ c_str buf = lit.
Proof.
  intros H E t. subst t.
  rewrite (od_verdict _ _ _ (all_orderly cap cid f info w H) lit E).
  pose proof (expected_final_c_str cid f lit H E) as L.
  split; intros [buf [G S]]; exists buf; (split; [exact G|]).
  - apply strcmp_zero in S. congruence.
  - apply strcmp_zero. congruence.
Qed.

(** X11. In the test cases that compare nothing before they report, the
    reported result is the code of the last call made before the report:
    under [m] the third line alone decides. *)
Theorem plain_verdict_is_last_code cid f info w c ret :
  In (cid, f) (scenario_table cap) -> expected_final cid = None ->
  last_call (before_report (trace (f info w))) = Some (c, ret) ->
  reported (trace (f info w)) = [ret].
Proof.
  intros H E L.
  apply (od_plain _ _ _ (all_orderly cap cid f info w H) E c ret L).
Qed.

(** X12. In every test case but the line-count query, the last call made is a
    deactivate call and the value returned is the code of that call. *)
Theorem returned_value_is_last_deactivate cid f info w c ret :
  In (cid, f) (scenario_table cap) -> cid <> 263 ->
  last_call (trace (f info w)) = Some (c, ret) ->
  is_deactivate c = true /\ value (f info w) = ret.
Proof.
  intros H N L.
  apply (od_last_call _ _ _ (all_orderly cap cid f info w H) N c ret L).
Qed.

(** X13. Every call, every [check_step_result], the [print_test_result] and
    the log line of a test case are handed [info->case_id]. *)
Theorem events_carry_case_id cid f info w :
  In (cid, f) (scenario_table cap) ->
  Forall (carries (case_id info)) (trace (f info w)).
Proof.
  intros H. apply (od_carries _ _ _ (all_orderly cap cid f info w H)).
Qed.

(** X14. A test case goes through all its steps whatever the calls return and
    whatever the mode: the number of [check_step_result] and
    [print_test_result] it makes is fixed. *)
Theorem steps_never_skipped cid f info w :
  In (cid, f) (scenario_table cap) ->
  List.length (step_results (trace (f info w))) = steps cid.
Proof.
  intros H. apply (od_steps _ _ _ (all_orderly cap cid f info w H)).
Qed.

(** X15. A test case reads and writes a line only after an activate call
    named it and before a deactivate call names it. *)
Theorem lines_used_while_active cid f info w :
  In (cid, f) (scenario_table cap) ->
  uses_active [] (calls (trace (f info w))).
Proof.
  intros H. apply (od_active _ _ _ (all_orderly cap cid f info w H)).
Qed.

(** X16. Every [strcmp] of a test case comes directly after a get call and
    compares the buffer that call filled with the token the test case
    last wrote to the attribute it has just read, on the line it has
    just read. *)
Theorem compares_with_written_token cid f info w :
  In (cid, f) (scenario_table cap) ->
  compares_written [] (trace (f info w)).
Proof.
  intros H. apply (od_written _ _ _ (all_orderly cap cid f info w H)).
Qed.

(** X17. Under [s], case 271 activates the line, reads its direction ten
    times and deactivates it; case 277 activates it, writes the direction
    ["out"] ten times, reads it once and deactivates it. *)
Theorem repeated_reads_and_outputs info w :
  is_num_type info "s" = true ->
  let cid := case_id info in
  let line := base_pin info + gpio_pin1 info in
  calls (trace (ARA_271_multiple_times_direction cap info w)) =
    Activate_gpio_pin cid line ::
    repeat (Get_gpio_direction cid line 4) 10 ++
    [Deactivate_gpio_pin cid line] /\
  calls (trace (ARA_277_multiple_times_output cap info w)) =
    Activate_gpio_pin cid line ::
    repeat (Set_gpio_direction cid line "out" 4) 10 ++
    [Get_gpio_direction cid line 4; Deactivate_gpio_pin cid line].
Proof.
  intros Hs cid line. subst cid line. split.
  - unfold ARA_271_multiple_times_direction. rewrite Hs. run.
    reflexivity.
  - unfold ARA_277_multiple_times_output. rewrite Hs. run.
    all: reflexivity.
Qed.

(** X18. Under [s], the two direction changes release the line and take it
    again between the two settings: case 409 and case 410 make these
    calls and no other. *)
Theorem transitions_reactivate info w :
  is_num_type info "s" = true ->
  let cid := case_id info in
  let line := base_pin info + gpio_pin1 info in
  calls (trace (ARA_409_input_to_output cap info w)) =
    [Activate_gpio_pin cid line; Set_gpio_direction cid line "in" 4;
     Get_gpio_value cid line 4; Deactivate_gpio_pin cid line;
     Activate_gpio_pin cid line; Set_gpio_direction cid line "out" 4;
     Set_gpio_value cid line "1" 4; Get_gpio_value cid line 4;
     Deactivate_gpio_pin cid line] /\
  calls (trace (ARA_410_output_to_input cap info w)) =
    [Activate_gpio_pin cid line; Set_gpio_direction cid line "out" 4;
     Set_gpio_value cid line "1" 4; Deactivate_gpio_pin cid line;
     Activate_gpio_pin cid line; Set_gpio_direction cid line "in" 4;
     Get_gpio_value cid line 4; Deactivate_gpio_pin cid line].
Proof.
  intros Hs cid line. subst cid line. split.
  - unfold ARA_409_input_to_output. rewrite Hs. run.
    all: reflexivity.
  - unfold ARA_410_output_to_input. rewrite Hs. run.
    reflexivity.
Qed.

End Cases.

(** ** On a controller that honours writes *)

Lemma not_both_modes info :
  is_num_type info "s" = true -> is_num_type info "m" = false.
Proof.
  intros Hs. destruct (is_num_type info "m") eqn:Hm; [clash | reflexivity].
Qed.

(** Unfolds the test case of the goal. *)
Ltac unfold_case :=
  cbv delta
    [
     ARA_263_get_count ARA_264_multiple_activate
     ARA_267_multiple_deactivate ARA_270_multiple_direction
     ARA_271_multiple_times_direction ARA_272_all_direction
     ARA_273_multiple_input ARA_274_multiple_times_input
     ARA_276_multiple_output ARA_277_multiple_times_output
     ARA_279_get_value ARA_281_set_value_high ARA_282_set_value_low
     ARA_286_set_edge_rising ARA_287_set_edge_falling
     ARA_288_set_edge_both ARA_409_input_to_output
     ARA_410_output_to_input ARA_411_falling_to_rising
     ARA_412_rising_to_falling ARA_413_rising_to_both
     ARA_416_none_to_both ARA_417_both_to_none];
  cbv beta.

(** Evaluates a test case on [honest], line numbers held abstract. *)
Ltac on_honest :=
  cbv [pin1 pin2 pin3];
  repeat match goal with
         | |- context [base_pin ?i + ?p ?i] =>
             let l := fresh "l" in
             generalize (base_pin i + p i); intros l
         end;
  cbv [for_lt for_loop Z.to_nat Pos.to_nat Pos.iter_op Nat.add];
  cbn;
  rewrite ?Z.eqb_refl; cbn;
  repeat match goal with
         | |- context [?a =? ?b] => destruct (a =? b)
         end;
  split; reflexivity.

Lemma honest_single cid f info w :
  In (cid, f) (scenario_table honest) ->
  is_num_type info "s" = true ->
  reported (trace (f info w)) = [0] /\ value (f info w) = 0.
Proof.
  intros H Hs. pose proof (not_both_modes info Hs) as Hm.
  assert (Ha : is_num_type info "a" = false).
  { destruct (is_num_type info "a") eqn:Ha; [clash | reflexivity]. }
  table H.
  all: unfold_case; rewrite ?Ha, ?Hm, ?Hs.
  all: on_honest.
Qed.

Lemma honest_multiple cid f info w :
  In (cid, f) (scenario_table honest) ->
  In Multiple (branches cid) ->
  is_num_type info "m" = true ->
  reported (trace (f info w)) = [0] /\ value (f info w) = 0.
Proof.
  intros H HM Hm.
  assert (Ha : is_num_type info "a" = false).
  { destruct (is_num_type info "a") eqn:Ha; [clash | reflexivity]. }
  table H; cbn in HM;
    try solve [repeat (destruct HM as [HM|HM]; try discriminate HM);
               contradiction].
  all: clear HM; unfold_case; rewrite ?Ha, ?Hm.
  all: on_honest.
Qed.

(** A loop of calls that [honest] answers with 0 and without a change of
    state. *)
Lemma honest_loop mk body :
  calls_as honest mk body ->
  (forall i w, exists b, cap_call honest (mk i) w = (0, b, w)) ->
  forall n i w,
  exists t, for_loop n i body 0 w = (0, w, t) /\ reported t = [].
Proof.
  intros Hb Hz. induction n as [|n IH]; intros i w.
  - exists []. split; reflexivity.
  - cbn [for_loop]. unfold bind. rewrite Hb.
    destruct (Hz i w) as [b ->]. destruct (IH (i + 1) w) as [t [-> R]].
    eexists. split; [reflexivity | exact R].
Qed.

Ltac honest_pass mk :=
  match goal with
  | |- context [for_loop ?n ?i ?body 0 ?w] =>
      let t := fresh "t" in
      let E := fresh "E" in
      let R := fresh "R" in
      destruct (honest_loop mk body
                  ltac:(intros ? ? ?;
                        cbv [bind activate_gpio_pin deactivate_gpio_pin
                             get_gpio_direction invoke mret];
                        destruct (cap_call honest _ _) as [[? ?] ?];
                        reflexivity)
                  ltac:(intros ? ?; eexists; reflexivity) n i w)
        as [t [E R]];
      rewrite E; clear E
  end.

Lemma honest_all info w :
  is_num_type info "a" = true ->
  reported (trace (ARA_272_all_direction honest info w)) = [0] /\
  value (ARA_272_all_direction honest info w) = 0.
Proof.
  intros Ha. unfold ARA_272_all_direction. rewrite Ha. unfold for_lt.
  cbv [bind check_step_result print_test_result emit mret].
  honest_pass (fun i => Activate_gpio_pin (case_id info) (base_pin info + i)).
  honest_pass
    (fun i => Get_gpio_direction (case_id info) (base_pin info + i) 4).
  honest_pass
    (fun i => Deactivate_gpio_pin (case_id info) (base_pin info + i)).
  cbn [trace value fst snd]. split; [|reflexivity].
  rewrite ?app_nil_r, !reported_app. cbn.
  repeat match goal with R : reported _ = [] |- _ => rewrite R; clear R end.
  reflexivity.
Qed.

(** X19. On a controller that answers every call with 0 and reads back the
    token last written to the attribute of the line, every test case
    reports 0 and returns 0, from any state of the controller and for any
    base and offsets, under every mode it has a branch for. *)
Theorem conforming_controller_passes cid f info w :
  In (cid, f) (scenario_table honest) -> served cid info ->
  reported (trace (f info w)) = [0] /\ value (f info w) = 0.
Proof.
  intros H [->|[m [Hm Hn]]].
  - table H. unfold_case. on_honest.
  - destruct m; cbn [mode_tag] in Hn.
    + apply (honest_single cid f info w H Hn).
    + apply (honest_multiple cid f info w H Hm Hn).
    + assert (cid = 272) as ->.
      { apply table_recognized in H. unfold recognized in H. cbn [In] in H.
        repeat (destruct H as [H|H];
                [subst cid; cbn in Hm;
                 first [reflexivity
                       |repeat (destruct Hm as [Hm|Hm];
                                try discriminate Hm); contradiction]|]).
        contradiction. }
      table H. apply honest_all, Hn.
Qed.

(** ** More concrete runs *)

Lemma verdict_is_final_read_witness :
  let t := trace (ARA_281_set_value_high (scripted 16) info_281
                    script_281) in
  step_results t = [-5; -5; -5; -5; 0] /\ reported t = [0].
Proof.
  assert (H : In (281, ARA_281_set_value_high (scripted 16))
                 (scenario_table (scripted 16))) by in_table.
  cbv zeta. split; [reflexivity|].
  apply (verdict_is_final_read (scripted 16) 281 _ "1" info_281 script_281
           H eq_refl).
  exists "1". split; reflexivity.
Defined.

Lemma plain_verdict_is_last_code_witness :
  let t := trace (ARA_270_multiple_direction (scripted 16) info_270
                    script_270) in
  last_call (before_report t) = Some (Get_gpio_direction 270 3 4, 0) /\
  reported t = [0].
Proof.
  assert (H : In (270, ARA_270_multiple_direction (scripted 16))
                 (scenario_table (scripted 16))) by in_table.
  cbv zeta. split; [reflexivity|].
  exact (plain_verdict_is_last_code (scripted 16) 270 _ info_270 script_270
           _ 0 H eq_refl eq_refl).
Defined.

Lemma returned_value_is_last_deactivate_witness :
  let r := ARA_270_multiple_direction (scripted 16) info_270
             script_read_fails in
  last_call (trace r) = Some (Deactivate_gpio_multiple_pin 270 1 2 3, 0) /\
  value r = 0.
Proof.
  assert (H : In (270, ARA_270_multiple_direction (scripted 16))
                 (scenario_table (scripted 16))) by in_table.
  assert (N : 270 <> 263) by discriminate.
  cbv zeta. split; [reflexivity|].
  exact (proj2 (returned_value_is_last_deactivate (scripted 16) 270 _
                  info_270 script_read_fails _ 0 H N eq_refl)).
Defined.

Lemma events_carry_case_id_witness :
  Forall (carries 416)
         (trace (ARA_416_none_to_both (scripted 16) info_416 script_416)).
Proof.
  assert (H : In (416, ARA_416_none_to_both (scripted 16))
                 (scenario_table (scripted 16))) by in_table.
  exact (events_carry_case_id (scripted 16) 416 _ info_416 script_416 H).
Defined.

Lemma steps_never_skipped_witness :
  List.length
    (step_results
       (trace (ARA_281_set_value_high (scripted 16) info_281 script_281))) =
  5%nat.
Proof.
  assert (H : In (281, ARA_281_set_value_high (scripted 16))
                 (scenario_table (scripted 16))) by in_table.
  exact (steps_never_skipped (scripted 16) 281 _ info_281 script_281 H).
Defined.

Lemma lines_used_while_active_witness :
  uses_active []
    (calls (trace (ARA_409_input_to_output (scripted 16) info_409 []))).
Proof.
  assert (H : In (409, ARA_409_input_to_output (scripted 16))
                 (scenario_table (scripted 16))) by in_table.
  exact (lines_used_while_active (scripted 16) 409 _ info_409 [] H).
Defined.

Lemma compares_with_written_token_witness :
  compares_written []
    (trace (ARA_273_multiple_input (scripted 16) info_273
              script_273_fails)).
Proof.
  assert (H : In (273, ARA_273_multiple_input (scripted 16))
                 (scenario_table (scripted 16))) by in_table.
  exact (compares_with_written_token (scripted 16) 273 _ info_273
           script_273_fails H).
Defined.

Lemma repeated_reads_and_outputs_witness :
  calls (trace (ARA_271_multiple_times_direction (scripted 16) info_271_s
                  [])) =
  Activate_gpio_pin 271 2 :: repeat (Get_gpio_direction 271 2 4) 10 ++
  [Deactivate_gpio_pin 271 2].
Proof.
  exact (proj1 (repeated_reads_and_outputs (scripted 16) info_271_s []
                  eq_refl)).
Defined.

Lemma transitions_reactivate_witness :
  calls (trace (ARA_409_input_to_output (scripted 16) info_409 [])) =
  [Activate_gpio_pin 409 5; Set_gpio_direction 409 5 "in" 4;
   Get_gpio_value 409 5 4; Deactivate_gpio_pin 409 5;
   Activate_gpio_pin 409 5; Set_gpio_direction 409 5 "out" 4;
   Set_gpio_value 409 5 "1" 4; Get_gpio_value 409 5 4;
   Deactivate_gpio_pin 409 5].
Proof.
  exact (proj1 (transitions_reactivate (scripted 16) info_409 [] eq_refl)).
Defined.

Lemma conforming_controller_passes_witness :
  let r := ARA_273_multiple_input honest info_273 fresh_lines in
  served 273 info_273 /\ reported (trace r) = [0] /\ value r = 0.
Proof.
  assert (H : In (273, ARA_273_multiple_input honest)
                 (scenario_table honest)) by in_table.
  assert (S : served 273 info_273).
  { right. exists Multiple. split; [left; reflexivity | reflexivity]. }
  cbv zeta. split; [exact S|].
  exact (conforming_controller_passes 273 _ info_273 fresh_lines H S).
Defined.

Lemma command_parse_in_uint16_witness :
  let info := snd (value (command_parse default_params argv_long tt)) in
  in_uint16 info /\ case_id info = 416 /\ gpio_pin1 info = 3 /\
  num_type info = "s".
Proof.
  assert (B : in_uint16 default_params).
  { unfold in_uint16. cbn. lia. }
  cbv zeta. split; [|repeat split].
  exact (command_parse_in_uint16 default_params argv_long tt B).
Defined.

Lemma command_parse_outcome_witness :
  let r := command_parse default_params argv_long tt in
  defined_on argv_long /\
  fst (value r) = 0 /\ case_id (snd (value r)) = 416 /\
  gpio_pin1 (snd (value r)) = 3 /\ gpio_pin2 (snd (value r)) = 0 /\
  c_str (num_type (snd (value r))) = "s".
Proof.
  assert (D : defined_on argv_long) by reflexivity.
  destruct (command_parse_outcome default_params argv_long tt D)
    as [_ [_ S]].
  destruct (S eq_refl) as [C [_ [I [P1 [P2 [_ [T _]]]]]]].
  cbv zeta. split; [exact D|]. split; [exact C|]. split; [exact I|].
  split; [exact P1|]. split; [exact P2 | exact T].
Defined.

Lemma main_early_exit_witness :
  defined_on argv_refused_early /\
  main (scripted 16) 7 argv_refused_early [] = (-22, [], [EvUsage]) /\
  main (scripted 16) 2 argv_270 [] = (-22, [], [EvUsage]).
Proof.
  assert (D : defined_on argv_refused_early) by reflexivity.
  split; [exact D|]. split.
  - exact (proj1 (main_early_exit (scripted 16) 7 argv_refused_early []
                    (or_intror (conj D eq_refl)))).
  - exact (proj1 (main_early_exit (scripted 16) 2 argv_270 []
                    (or_introl eq_refl))).
Defined.

Lemma main_discovery_fails_witness :
  defined_on argv_270 /\
  main absent 7 argv_270 tt = (-19, tt, [EvDiscover (-19) 0 0;
                                         EvCheckStep 270 (-19)]).
Proof.
  assert (A : 3 <= 7) by discriminate.
  assert (N : -19 <> 0) by discriminate.
  assert (D : defined_on argv_270) by reflexivity.
  split; [exact D|].
  exact (main_discovery_fails absent 7 argv_270 tt (-19) 0 0 tt A eq_refl
           D eq_refl N).
Defined.

Lemma main_runs_selected_case_witness :
  defined_on argv_270 /\
  main (scripted 65539) 7 argv_270 script_read_fails =
  (0, [],
   [EvDiscover 0 0 65539; EvCheckStep 270 0;
    EvCall (Activate_gpio_pin 270 3) 0 ""; EvCheckStep 270 0;
    EvCall (Get_gpio_direction 270 3 4) (-5) ""; EvTestResult 270 (-5);
    EvCall (Deactivate_gpio_pin 270 3) 0 ""; EvCheckStep 270 0]) /\
  max_count (context_of argv_270 0 65539) = 3.
Proof.
  assert (A : 3 <= 7) by discriminate.
  assert (D : defined_on argv_270) by reflexivity.
  split; [exact D|]. split; [|reflexivity].
  exact (main_runs_selected_case (scripted 65539) 7 argv_270
           script_read_fails 0 65539 script_read_fails A eq_refl D
           eq_refl).
Defined.
